(** * VeilSync: the staged process simulator and the analysis client

    A shallow embedding of the control logic of the VeilSync single-page
    application: the log store and the scripted stage simulator of the
    [App] component, its update-check poller, and the request/response
    protocol of the [DataAnalyzer] component.

    React state is modelled by records and every handler by a function from
    the state it closes over to the states it commits: one state per
    suspension point ([await]) and one when the handler returns, the setter
    calls in between being batched.  What the browser decides (the wall
    clock, [Math.random], timer lateness, the answer of a remote endpoint) is
    an explicit argument of the handler.

    Conventions of the model:
    - the wall clock is an integer number of milliseconds and does not go
      backwards while a handler is suspended; a timer never fires early;
    - one call of a handler is followed from its start to its return, with
      no other handler running in between;
    - strings are sequences of 8-bit characters, [length] counting them. *)

From Stdlib Require Import ZArith QArith List String Ascii Bool Lia.
From Stdlib Require Import DecimalString.
Import ListNotations.

Open Scope string_scope.
Open Scope list_scope.
Open Scope Z_scope.

(** ** JavaScript truthiness of the values the handlers test *)

Definition truthy_string (s : string) : bool := negb (s =? "")%string.

Definition truthy_ostring (o : option string) : bool :=
  match o with
  | Some s => truthy_string s
  | None => false
  end.

(** [x || y] on a possibly absent string and a default string. *)
Definition or_else (o : option string) (d : string) : string :=
  match o with
  | Some s => if truthy_string s then s else d
  | None => d
  end.

(** [`${n}`] for a non-negative integer. *)
Definition show_nat (n : nat) : string := NilEmpty.string_of_uint (Nat.to_uint n).

(** ** types.ts *)

Inductive LogStatus : Type := pending | success | error | info.

Definition LogStatus_eqb (a b : LogStatus) : bool :=
  match a, b with
  | pending, pending | success, success | error, error | info, info => true
  | _, _ => false
  end.

(** An id is the number [Date.now() + Math.random()]: a whole number of
    milliseconds plus a fraction in [0,1).  It is kept exactly, as a
    fixed-point number counting units of 2^-53 milliseconds.  (The rounding of
    the sum to a double moves an id by less than a millisecond and keeps the
    order of two ids taken a millisecond or more apart.) *)
Definition PRECISION : Z := 2 ^ 53.

Record LogEntry : Type := mkLog {
  id : Z;
  message : string;
  status : LogStatus
}.

(** [{...l, status: st}] *)
Definition with_status (l : LogEntry) (st : LogStatus) : LogEntry :=
  {| id := id l; message := message l; status := st |}.

(** ** The environment of a run *)

(** [Date.now() + Math.random()], with [Math.random()] given by the numerator
    [r] of a fraction over 2^53, so that it lies in [0,1). *)
Definition fresh_id (now : Z) (r : N) : Z :=
  now * PRECISION + Z.of_N r mod PRECISION.

(** [await sleep(ms)]: the timer fires [ms] milliseconds later (a negative
    delay counts as zero), or [late] milliseconds after that. *)
Definition sleep (ms : Z) (late : N) (now : Z) : Z :=
  now + Z.max 0 ms + Z.of_N late.

(** What the browser decides during one stage of a run. *)
Record Tick : Type := mkTick {
  random : N;
  late_register : N;
  late_delay : N
}.

Definition Env : Type := nat -> Tick.

(** ** The App component *)

Module App.

Record ImageData : Type := mkImage {
  url : string;
  base64 : string;
  mimeType : string;
  name : string
}.

Record State : Type := mkState {
  isAuthenticated : bool;
  logs : list LogEntry;
  isSyncing : bool;
  isSessionPersistent : bool;
  fileContent : option string;
  pastedContent : string;
  fileName : option string;
  imageData : option ImageData;
  syncCompleted : bool;
  showAnalyzer : bool;
  showUpdateModal : bool;
  snoozeUntil : option Z
}.

Definition setLogs (l : list LogEntry) (s : State) : State :=
  mkState (isAuthenticated s) l (isSyncing s) (isSessionPersistent s)
          (fileContent s) (pastedContent s) (fileName s) (imageData s)
          (syncCompleted s) (showAnalyzer s) (showUpdateModal s) (snoozeUntil s).

Definition setIsSyncing (b : bool) (s : State) : State :=
  mkState (isAuthenticated s) (logs s) b (isSessionPersistent s)
          (fileContent s) (pastedContent s) (fileName s) (imageData s)
          (syncCompleted s) (showAnalyzer s) (showUpdateModal s) (snoozeUntil s).

Definition setSyncCompleted (b : bool) (s : State) : State :=
  mkState (isAuthenticated s) (logs s) (isSyncing s) (isSessionPersistent s)
          (fileContent s) (pastedContent s) (fileName s) (imageData s)
          b (showAnalyzer s) (showUpdateModal s) (snoozeUntil s).

Definition setShowUpdateModal (b : bool) (s : State) : State :=
  mkState (isAuthenticated s) (logs s) (isSyncing s) (isSessionPersistent s)
          (fileContent s) (pastedContent s) (fileName s) (imageData s)
          (syncCompleted s) (showAnalyzer s) b (snoozeUntil s).

Definition setSnoozeUntil (t : option Z) (s : State) : State :=
  mkState (isAuthenticated s) (logs s) (isSyncing s) (isSessionPersistent s)
          (fileContent s) (pastedContent s) (fileName s) (imageData s)
          (syncCompleted s) (showAnalyzer s) (showUpdateModal s) t.

(** [addLog]: [setLogs(prevLogs => [...prevLogs, newLog])]. *)
Definition addLog (now : Z) (r : N) (m : string) (st : LogStatus) (s : State) : State :=
  setLogs (logs s ++ [mkLog (fresh_id now r) m st]) s.

(** [!!fileContent || !!pastedContent || !!imageData] *)
Definition hasData (s : State) : bool :=
  truthy_ostring (fileContent s) || truthy_string (pastedContent s)
  || match imageData s with Some _ => true | None => false end.

(** [!fileContent && !pastedContent && !imageData] *)
Definition no_payload (s : State) : bool :=
  negb (truthy_ostring (fileContent s)) && negb (truthy_string (pastedContent s))
  && negb (match imageData s with Some _ => true | None => false end).

(** *** The stage script *)

Record Step : Type := mkStep {
  msg : string;
  delay : Z;
  step_status : LogStatus
}.

(** [imageData?.name || fileName || 'Pasted Content'] *)
Definition dataName (s : State) : string :=
  or_else (option_map name (imageData s)) (or_else (fileName s) "Pasted Content").

(** [fileContent?.length || pastedContent.length] *)
Definition dataLength (s : State) : nat :=
  match fileContent s with
  | Some c => if (String.length c =? 0)%nat then String.length (pastedContent s)
              else String.length c
  | None => String.length (pastedContent s)
  end.

Definition dataSize (s : State) : string :=
  match imageData s with
  | Some _ => "Image Data"
  | None => (show_nat (dataLength s) ++ " chars")%string
  end.

Definition steps (s : State) : list Step :=
  [ mkStep "INITIALIZING PHANTOM_V RUNTIME" 1000 info;
    mkStep ("PROCESSING DATA: " ++ dataName s)%string 1000 info;
    mkStep "ESTABLISHING SECURE CONNECTION" 1500 info;
    mkStep "ANALYZING DATA STRUCTURE" 1200 info;
    mkStep "ATTEMPTING KERNEL-LEVEL SYNC" 2000 info;
    mkStep "SYNC FAILED: ACCESS RESTRICTED." 800 error;
    mkStep "FALLBACK TO PAYLOAD INJECTION" 1500 info;
    mkStep ("SUCCESS: " ++ dataSize s ++ " SYNCED.")%string 1000 success;
    mkStep "SYNC COMPLETE. STANDBY." 500 success ].

(** *** The stage loop *)

(** [currentLogs.map(l => l.id === i ? {...l, status: st} : l)] *)
Definition set_status (i : Z) (st : LogStatus) (l : list LogEntry) : list LogEntry :=
  map (fun e => if id e =? i then with_status e st else e) l.

Record Loop : Type := mkLoop {
  clock : Z;
  currentLogs : list LogEntry;
  commits : list (list LogEntry)
}.

(** The [for (const step of steps)] loop of [handleStartSync], stage number
    [k] onwards.  [commits] lists the arguments of the successive [setLogs]
    calls, each a fresh copy of [currentLogs]. *)
Fixpoint run_steps (env : Env) (k : nat) (script : list Step)
         (now : Z) (cur : list LogEntry) : Loop :=
  match script with
  | [] => mkLoop now cur []
  | step :: rest =>
      let t := env k in
      let pendingLog := mkLog (fresh_id now (random t)) (msg step) pending in
      let pushed := cur ++ [pendingLog] in
      let now1 := sleep 200 (late_register t) now in
      let mapped := set_status (id pendingLog) (step_status step) pushed in
      let now2 := sleep (delay step) (late_delay t) now1 in
      let r := run_steps env (S k) rest now2 mapped in
      mkLoop (clock r) (currentLogs r) (pushed :: mapped :: commits r)
  end.

Definition persistence_message (persistent : bool) : string :=
  if persistent then "SESSION PERSISTENCE ENABLED."
  else "SESSION PERSISTENCE DISABLED. CLEARING INPUT ON NEXT ACTION.".

(** The states [handleStartSync] commits, one per suspension point and one
    when it returns; none when the guard rejects the call. *)
Definition handleStartSync_commits (env : Env) (now : Z) (s : State) : list State :=
  if isSyncing s || no_payload s then []
  else
    let s0 := setLogs [] (setSyncCompleted false (setIsSyncing true s)) in
    let script := steps s in
    let r := run_steps env 0 script now [] in
    let during := map (fun l => setLogs l s0) (commits r) in
    let s1 := setSyncCompleted true (setLogs (currentLogs r) s0) in
    let s2 := addLog (clock r) (random (env (List.length script)))
                     (persistence_message (isSessionPersistent s)) info s1 in
    during ++ [setIsSyncing false s2].

(** The state [handleStartSync] leaves behind. *)
Definition handleStartSync (env : Env) (now : Z) (s : State) : State :=
  last (handleStartSync_commits env now s) s.

(** *** The run, stage by stage

    A description of what a run is to commit, to compare the loop with: the
    entries of the stages in their final form, and the contents of the log
    store after each step of each stage. *)

(** The clock at which the stage after [step] starts. *)
Definition after_stage (t : Tick) (step : Step) (now : Z) : Z :=
  sleep (delay step) (late_delay t) (sleep 200 (late_register t) now).

Fixpoint end_clock (env : Env) (k : nat) (script : list Step) (now : Z) : Z :=
  match script with
  | [] => now
  | step :: rest => end_clock env (S k) rest (after_stage (env k) step now)
  end.

(** One entry per stage, in script order, bearing the scripted status. *)
Fixpoint stage_entries (env : Env) (k : nat) (script : list Step) (now : Z)
  : list LogEntry :=
  match script with
  | [] => []
  | step :: rest =>
      mkLog (fresh_id now (random (env k))) (msg step) (step_status step)
      :: stage_entries env (S k) rest (after_stage (env k) step now)
  end.

(** Each entry of [todo] in turn is appended as pending and then replaced, in
    place, by its final form; the entries before it stay as they are. *)
Fixpoint stage_commits (done todo : list LogEntry) : list (list LogEntry) :=
  match todo with
  | [] => []
  | e :: rest =>
      (done ++ [with_status e pending]) :: (done ++ [e])
      :: stage_commits (done ++ [e]) rest
  end.

Definition view (e : LogEntry) : string * LogStatus := (message e, status e).

Definition step_view (st : Step) : string * LogStatus := (msg st, step_status st).

Definition LogEntry_eqb (a b : LogEntry) : bool :=
  (id a =? id b) && (message a =? message b)%string
  && LogStatus_eqb (status a) (status b).

(** Whether some state of [trace] shows [e] with status pending. *)
Definition was_pending (e : LogEntry) (trace : list State) : bool :=
  existsb (fun c => existsb (LogEntry_eqb (with_status e pending)) (logs c)) trace.

(** The entry [addLog] appends when the loop is over. *)
Definition trailing_entry (env : Env) (now : Z) (s : State) : LogEntry :=
  mkLog (fresh_id (end_clock env 0 (steps s) now) (random (env (List.length (steps s)))))
        (persistence_message (isSessionPersistent s)) info.

(** *** The update check *)

Definition UPDATE_CHECK_INTERVAL : Z := 10 * 60 * 1000.

(** What [fetch(GITHUB_REPO_URL)] comes to: a rejected promise, or a response
    with its status and the [sha] field of its JSON body. *)
Inductive FetchResult : Type :=
  | NetworkError
  | Response (status : Z) (sha : string).

(** [response.ok] *)
Definition ok (status : Z) : bool := (200 <=? status) && (status <=? 299).

Inductive Effect : Type :=
  | Fetch        (* the request to the revision endpoint *)
  | RaiseModal   (* setShowUpdateModal(true) *)
  | PlayAlert    (* audioRef.current.play() *)
  | ConsoleError.

Definition Effect_eqb (a b : Effect) : bool :=
  match a, b with
  | Fetch, Fetch | RaiseModal, RaiseModal | PlayAlert, PlayAlert
  | ConsoleError, ConsoleError => true
  | _, _ => false
  end.

(** The number of notifications among the effects of a check. *)
Definition notifications (l : list Effect) : nat :=
  List.length (filter (Effect_eqb RaiseModal) l).

(** [sessionStorage], as far as the component uses it: the item
    [currentCommitSha]. *)
Definition Storage : Type := option string.

Record Checked : Type := mkChecked {
  state : State;
  storage : Storage;
  effects : list Effect
}.

(** [snoozeUntil && Date.now() < snoozeUntil] *)
Definition snoozed (now : Z) (s : State) : bool :=
  match snoozeUntil s with
  | Some t => negb (t =? 0) && (now <? t)
  | None => false
  end.

(** The [<audio>] element is mounted by the authenticated render only. *)
Definition alert (s : State) : list Effect :=
  if isAuthenticated s then [PlayAlert] else [].

Definition checkForUpdates (now : Z) (res : FetchResult)
           (stored : Storage) (s : State) : Checked :=
  if snoozed now s then mkChecked s stored []
  else
    match res with
    | NetworkError => mkChecked s stored [Fetch; ConsoleError]
    | Response st latestCommitSha =>
        if negb (ok st) then mkChecked s stored [Fetch; ConsoleError]
        else
          match stored with
          | Some currentCommitSha =>
              if negb (truthy_string currentCommitSha)
              then mkChecked s (Some latestCommitSha) [Fetch]
              else if negb (currentCommitSha =? latestCommitSha)%string
              then mkChecked (setShowUpdateModal true s) stored
                             (Fetch :: RaiseModal :: alert s)
              else mkChecked s stored [Fetch]
          | None => mkChecked s (Some latestCommitSha) [Fetch]
          end
    end.

Definition handleSnooze (now : Z) (minutes : Z) (s : State) : State :=
  setShowUpdateModal false (setSnoozeUntil (Some (now + minutes * 60 * 1000)) s).

End App.

(** ** The DataAnalyzer component *)

Module DataAnalyzer.

(** A parsed JSON value.  An object keeps its members in source order. *)
#[local] Unset Elimination Schemes.
Inductive json : Type :=
  | JNull
  | JBool (b : bool)
  | JNumber (q : Q)
  | JString (s : string)
  | JArray (items : list json)
  | JObject (members : list (string * json)).
#[local] Set Elimination Schemes.

Definition truthy (r : json) : bool :=
  match r with
  | JNull => false
  | JBool b => b
  | JNumber q => negb (Qeq_bool q 0)
  | JString s => truthy_string s
  | JArray _ | JObject _ => true
  end.

(** The value of member [k]; of duplicate members the last one counts. *)
Fixpoint lookup (k : string) (members : list (string * json)) : option json :=
  match members with
  | [] => None
  | (k', v) :: rest =>
      match lookup k rest with
      | Some v' => Some v'
      | None => if (k' =? k)%string then Some v else None
      end
  end.

(** [r.k] for the member names the component reads ([description], [tags],
    [dataType], [summary], [risks]): [None] is [undefined].  No primitive or
    array prototype defines any of these names. *)
Definition get (k : string) (r : json) : option json :=
  match r with
  | JObject members => lookup k members
  | _ => None
  end.

Definition is_string (o : option json) : bool :=
  match o with Some (JString _) => true | _ => false end.

Definition is_array (o : option json) : bool :=
  match o with Some (JArray _) => true | _ => false end.

(** [result && typeof result.description === 'string' &&
    Array.isArray(result.tags)], as the condition it is used for. *)
Definition isImageAnalysis (result : json) : bool :=
  truthy result && is_string (get "description" result)
  && is_array (get "tags" result).

Record Props : Type := mkProps {
  textContent : option string;
  imageData : option App.ImageData
}.

Record State : Type := mkState {
  isLoading : bool;
  analysis : json;          (* [JNull] is [null] *)
  error : option string
}.

Definition initial : State := mkState false JNull None.

(** *** The request *)

Inductive SchemaType : Type :=
  | TString
  | TArrayOf (items : SchemaType).

(** A [responseSchema] of type OBJECT; the free-text [description] of each
    property is left out. *)
Record Schema : Type := mkSchema {
  properties : list (string * SchemaType);
  required : list string
}.

Inductive Contents : Type :=
  | Parts (text : string) (inlineMimeType inlineData : string)
  | Text (text : string).

Record Request : Type := mkRequest {
  model : string;
  contents : Contents;
  systemInstruction : option string;
  responseMimeType : string;
  responseSchema : Schema
}.

Definition image_schema : Schema :=
  mkSchema [("description", TString); ("tags", TArrayOf TString); ("anomaly", TString)]
           ["description"; "tags"; "anomaly"].

Definition text_schema : Schema :=
  mkSchema [("dataType", TString); ("summary", TString); ("risks", TArrayOf TString)]
           ["dataType"; "summary"; "risks"].

Definition image_request (img : App.ImageData) : Request :=
  mkRequest "gemini-2.5-flash"
    (Parts "You are PhantomV, a futuristic AI data analyst. Your analysis should be concise and adopt a cyberpunk, high-tech tone. Analyze the provided image and generate a response. Describe the visual content, identify up to 5 relevant tags, and point out one potential anomaly or point of interest. If no anomaly is found, state 'None detected'."
           (App.mimeType img) (App.base64 img))
    None "application/json" image_schema.

Definition newline : string := String (ascii_of_nat 10) EmptyString.

Definition text_request (textContent : string) : Request :=
  mkRequest "gemini-2.5-flash"
    (Text ("Analyze the following data payload. Data: " ++ newline ++ newline
           ++ textContent)%string)
    (Some "You are PhantomV, a futuristic AI data analyst. Your analysis should be concise and adopt a cyberpunk, high-tech tone. Identify the data type (e.g., JSON, JavaScript, Text Log), provide a one-sentence summary, and list up to 3 potential security keywords or notable patterns.")
    "application/json" text_schema.

(** The branch of [handleAnalyze] taken: [None] is the final [else], which
    throws before any request is made. *)
Definition request_for (p : Props) : option Request :=
  match imageData p with
  | Some img => Some (image_request img)
  | None =>
      match textContent p with
      | Some t => if truthy_string t then Some (text_request t) else None
      | None => None
      end
  end.

(** *** The response *)

(** What [await ai.models.generateContent(...)] followed by
    [JSON.parse(response.text)] comes to.  The client throws on a network
    failure and on a non-success status; [Body None] is a body that
    [JSON.parse] rejects. *)
Inductive Outcome : Type :=
  | NetworkFailure
  | BadStatus (code : Z)
  | Body (parsed : option json).

Definition ANALYSIS_FAILED : string :=
  "Analysis failed. The AI core might be offline or the data payload is corrupted.".

Record Run : Type := mkRun {
  requests : list Request;
  commits : list State
}.

(** [handleAnalyze]: the requests it sends and the states it commits, at the
    [await] (if it gets there) and when it returns.  It writes all three
    state variables, so nothing of the previous state survives. *)
Definition handleAnalyze (p : Props) (o : Outcome) : Run :=
  let loading := mkState true JNull None in
  let failed := mkState false JNull (Some ANALYSIS_FAILED) in
  match request_for p with
  | None => mkRun [] [failed]
  | Some rq =>
      match o with
      | Body (Some resultJson) => mkRun [rq] [loading; mkState false resultJson None]
      | _ => mkRun [rq] [loading; failed]
      end
  end.

(** The state a call of [handleAnalyze] in state [s] leaves behind. *)
Definition analyze (p : Props) (o : Outcome) (s : State) : State :=
  last (commits (handleAnalyze p o)) s.

(** *** The numeric value of a string

    [Number(s) > 0] for a string [s], as the comparison [v > 0] computes it
    when [v] is a string: white space is trimmed, the rest is read as a
    numeric literal, a string that is no literal counts as NaN, and the
    value is rounded to the nearest double. *)

(** White space and line terminators among the 8-bit characters. *)
Definition is_space (c : ascii) : bool :=
  let n := nat_of_ascii c in
  ((n =? 9) || (n =? 10) || (n =? 11) || (n =? 12) || (n =? 13) || (n =? 32)
   || (n =? 160))%nat.

Fixpoint trim_left (s : string) : string :=
  match s with
  | EmptyString => EmptyString
  | String c rest => if is_space c then trim_left rest else s
  end.

Fixpoint trim_right (s : string) : string :=
  match s with
  | EmptyString => EmptyString
  | String c rest =>
      match trim_right rest with
      | EmptyString => if is_space c then EmptyString else String c EmptyString
      | rest' => String c rest'
      end
  end.

Definition trim (s : string) : string := trim_right (trim_left s).

(** The value of a digit in a base up to 16. *)
Definition digit_value (base : Z) (c : ascii) : option Z :=
  let n := Z.of_nat (nat_of_ascii c) in
  let v := if (48 <=? n) && (n <=? 57) then Some (n - 48)
           else if (97 <=? n) && (n <=? 102) then Some (n - 87)
           else if (65 <=? n) && (n <=? 70) then Some (n - 55)
           else None in
  match v with
  | Some d => if d <? base then Some d else None
  | None => None
  end.

(** The longest run of decimal digits at the head of [s], appended to the
    digits already read: their value, their number, and the rest. *)
Fixpoint read_digits (s : string) (acc : Z) (n : nat) : Z * nat * string :=
  match s with
  | EmptyString => (acc, n, s)
  | String c rest =>
      match digit_value 10 c with
      | Some d => read_digits rest (10 * acc + d) (S n)
      | None => (acc, n, s)
      end
  end.

(** The exponent part at the end of a decimal literal, possibly empty;
    [None] when [s] is no exponent part. *)
Definition read_exponent (s : string) : option Z :=
  match s with
  | EmptyString => Some 0
  | String c rest =>
      if Ascii.eqb c "e" || Ascii.eqb c "E" then
        let '(negative, digits) :=
          match rest with
          | String sign rest' =>
              if Ascii.eqb sign "-" then (true, rest')
              else if Ascii.eqb sign "+" then (false, rest')
              else (false, rest)
          | EmptyString => (false, rest)
          end in
        match read_digits digits 0 0 with
        | (e, S _, EmptyString) => Some (if negative then - e else e)
        | _ => None
        end
      else None
  end.

(** An unsigned decimal literal or [Infinity] whose value rounds to a double
    above zero, that is, exceeds 2^-1075. *)
Definition decimal_positive (s : string) : bool :=
  if (s =? "Infinity")%string then true
  else
    let '(m1, n1, after_int) := read_digits s 0 0 in
    let '(m, n2, after_frac) :=
      match after_int with
      | String c rest => if Ascii.eqb c "." then read_digits rest m1 0
                         else (m1, 0%nat, after_int)
      | EmptyString => (m1, 0%nat, after_int)
      end in
    match (n1 + n2)%nat, read_exponent after_frac with
    | S _, Some e =>
        let k := e - Z.of_nat n2 in
        (0 <? m) && (if 0 <=? k then true else 10 ^ (- k) <? m * 2 ^ 1075)
    | _, _ => false
    end.

(** A non-empty run of digits of the base, not all zero. *)
Fixpoint radix_digits (base : Z) (s : string) : option bool :=
  match s with
  | EmptyString => Some false
  | String c rest =>
      match digit_value base c, radix_digits base rest with
      | Some d, Some nonzero => Some (negb (d =? 0) || nonzero)
      | _, _ => None
      end
  end.

Definition radix_positive (base : Z) (s : string) : bool :=
  match s with
  | EmptyString => false
  | _ => match radix_digits base s with Some nonzero => nonzero | None => false end
  end.

Definition number_positive (s : string) : bool :=
  match trim s with
  | EmptyString => false
  | String c rest =>
      if Ascii.eqb c "-" then false
      else if Ascii.eqb c "+" then decimal_positive rest
      else if Ascii.eqb c "0" then
        match rest with
        | String x digits =>
            if Ascii.eqb x "x" || Ascii.eqb x "X" then radix_positive 16 digits
            else if Ascii.eqb x "o" || Ascii.eqb x "O" then radix_positive 8 digits
            else if Ascii.eqb x "b" || Ascii.eqb x "B" then radix_positive 2 digits
            else decimal_positive (String c rest)
        | EmptyString => false
        end
      else decimal_positive (String c rest)
  end.

(** *** The comparison [v > 0] on a parsed value *)

(** Whether the object has a member of its own named [k]. *)
Definition has_own (k : string) (members : list (string * json)) : bool :=
  match lookup k members with Some _ => true | None => false end.

(** Whether [String(v)] returns: an object with a member [toString] of its
    own, which no parsed value can call, has no string. *)
Fixpoint stringifies (v : json) : bool :=
  match v with
  | JArray items => forallb stringifies items
  | JObject members => negb (has_own "toString" members)
  | _ => true
  end.

(** [Number(String(v)) > 0] for the only element [v] of an array that
    [stringifies]: null gives the empty string, a boolean and an object give
    no number, an array gives the string of its elements joined by commas. *)
Fixpoint joined_positive (v : json) : bool :=
  match v with
  | JNumber q => negb (Qle_bool q 0)
  | JString s => number_positive s
  | JArray (x :: nil) => joined_positive x
  | _ => false
  end.

(** [v > 0], where [None] as argument is [undefined] and [None] as result is
    a TypeError. *)
Definition gt_zero (v : option json) : option bool :=
  match v with
  | None | Some JNull => Some false
  | Some (JBool b) => Some b
  | Some (JNumber q) => Some (negb (Qle_bool q 0))
  | Some (JString s) => Some (number_positive s)
  | Some (JArray items) =>
      if forallb stringifies items
      then Some (match items with x :: nil => joined_positive x | _ => false end)
      else None
  | Some (JObject members) =>
      if has_own "toString" members then None else Some false
  end.

(** *** Rendering *)

(** What the text panel shows under Noteworthy Patterns:
    [textAnalysis.risks.length > 0 ? textAnalysis.risks.map(...) : ...].
    Reading [length] of [undefined] or [null] is a TypeError, and so is
    calling [map] on anything but an array once the length is above zero. *)
Inductive Risks : Type :=
  | RiskList (items : list json)
  | NoThreats
  | RisksTypeError.

Definition risks_section (textAnalysis : json) : Risks :=
  match get "risks" textAnalysis with
  | None | Some JNull => RisksTypeError
  | Some (JArray items) =>
      match items with
      | [] => NoThreats
      | _ => RiskList items
      end
  | Some (JString t) => if truthy_string t then RisksTypeError else NoThreats
  | Some (JBool _) | Some (JNumber _) => NoThreats
  | Some (JObject members) =>
      match gt_zero (lookup "length" members) with
      | Some false => NoThreats
      | _ => RisksTypeError
      end
  end.

(** The element [renderContent] returns, by the panel it is and the result
    it is built from; [RenderError] when evaluating [renderContent] throws a
    TypeError.  What React does with the element afterwards is not part of
    it. *)
Inductive View : Type :=
  | Loading
  | ErrorPanel (msg : string)
  | ImagePanel (result : json)
  | TextPanel (result : json)
  | Idle (buttonText : string)
  | RenderError.

(** The text branch, taken with [textAnalysis = analysis]. *)
Definition text_panel (textAnalysis : json) : View :=
  match risks_section textAnalysis with
  | RisksTypeError => RenderError
  | _ => TextPanel textAnalysis
  end.

Definition renderContent (p : Props) (s : State) : View :=
  if isLoading s then Loading
  else if truthy_ostring (error s) then ErrorPanel (or_else (error s) "")
  else if truthy (analysis s) then
    if isImageAnalysis (analysis s) then ImagePanel (analysis s)
    else text_panel (analysis s)
  else
    Idle (match imageData p with
          | Some _ => "Analyze Image"
          | None => "Initiate Analysis"
          end).

(** *** What the claims observe of a result *)

(** Whether [r.k] is defined. *)
Definition has (k : string) (r : json) : bool :=
  match get k r with Some _ => true | None => false end.



(** Whether [r] has every field that [schema] marks as required. *)
Definition honours (schema : Schema) (r : json) : bool :=
  forallb (fun k => has k r) (required schema).



(** The outcomes that make [handleAnalyze] throw. *)
Definition failure (o : Outcome) : bool :=
  match o with
  | Body (Some _) => false
  | _ => true
  end.

Definition failed : State := mkState false JNull (Some ANALYSIS_FAILED).

(** The props [App] mounts the component with:
    [textContent={fileContent || pastedContent}], [imageData={imageData}]. *)
Definition props_of (s : App.State) : Props :=
  mkProps (Some (or_else (App.fileContent s) (App.pastedContent s))) (App.imageData s).

End DataAnalyzer.

(** ** The rest of the App component: input handling, session, controls *)

Module Controller.
Import App.


(** The [useState] defaults: the state after a page load. *)
Definition initial : State :=
  mkState false [] false false None "" None None false false false None.

Definition setIsAuthenticated (b : bool) (s : State) : State :=
  mkState b (logs s) (isSyncing s) (isSessionPersistent s)
          (fileContent s) (pastedContent s) (fileName s) (imageData s)
          (syncCompleted s) (showAnalyzer s) (showUpdateModal s) (snoozeUntil s).

Definition setIsSessionPersistent (b : bool) (s : State) : State :=
  mkState (isAuthenticated s) (logs s) (isSyncing s) b
          (fileContent s) (pastedContent s) (fileName s) (imageData s)
          (syncCompleted s) (showAnalyzer s) (showUpdateModal s) (snoozeUntil s).

Definition setFileContent (c : option string) (s : State) : State :=
  mkState (isAuthenticated s) (logs s) (isSyncing s) (isSessionPersistent s)
          c (pastedContent s) (fileName s) (imageData s)
          (syncCompleted s) (showAnalyzer s) (showUpdateModal s) (snoozeUntil s).

Definition setPastedContent (c : string) (s : State) : State :=
  mkState (isAuthenticated s) (logs s) (isSyncing s) (isSessionPersistent s)
          (fileContent s) c (fileName s) (imageData s)
          (syncCompleted s) (showAnalyzer s) (showUpdateModal s) (snoozeUntil s).

Definition setFileName (n : option string) (s : State) : State :=
  mkState (isAuthenticated s) (logs s) (isSyncing s) (isSessionPersistent s)
          (fileContent s) (pastedContent s) n (imageData s)
          (syncCompleted s) (showAnalyzer s) (showUpdateModal s) (snoozeUntil s).

Definition setImageData (i : option ImageData) (s : State) : State :=
  mkState (isAuthenticated s) (logs s) (isSyncing s) (isSessionPersistent s)
          (fileContent s) (pastedContent s) (fileName s) i
          (syncCompleted s) (showAnalyzer s) (showUpdateModal s) (snoozeUntil s).

Definition setShowAnalyzer (b : bool) (s : State) : State :=
  mkState (isAuthenticated s) (logs s) (isSyncing s) (isSessionPersistent s)
          (fileContent s) (pastedContent s) (fileName s) (imageData s)
          (syncCompleted s) b (showUpdateModal s) (snoozeUntil s).

Definition handleLogout (s : State) : State := setIsAuthenticated false s.

Definition resetInput (s : State) : State :=
  setShowAnalyzer false
    (setSyncCompleted false
       (setPastedContent ""
          (setImageData None (setFileName None (setFileContent None s))))).

Definition LOGIN_MESSAGE : string :=
  "Authentication successful. VeilSync protocol engaged.".

Definition handleLogin (now : Z) (r : N) (s : State) : State :=
  resetInput (addLog now r LOGIN_MESSAGE success (setLogs [] (setIsAuthenticated true s))).

(** *** Files *)

(** A [File], as far as the component reads it. *)
Record File : Type := mkFile {
  file_type : string;
  file_name : string
}.

(** [file.type.startsWith('image/')] *)
Definition is_image (file : File) : bool := String.prefix "image/" (file_type file).

(** The synchronous part of [handleFileRead]: everything up to the start of
    the read. *)
Definition handleFileRead (file : File) (s : State) : State :=
  let s1 := setLogs [] (resetInput s) in
  if is_image file then s1 else setFileName (Some (file_name file)) s1.

(** [s.split(',')] *)
Fixpoint split_comma (s : string) : list string :=
  match s with
  | EmptyString => [EmptyString]
  | String c rest =>
      if Ascii.eqb c ","%char then EmptyString :: split_comma rest
      else match split_comma rest with
           | piece :: pieces => String c piece :: pieces
           | [] => [String c EmptyString]
           end
  end.

(** [dataUrl.split(',')[1]]; [None] is [undefined]. *)
Definition base64_of (dataUrl : string) : option string :=
  nth_error (split_comma dataUrl) 1.

(** [reader.onload] of the image branch.  The result is [None] when
    [dataUrl] has no comma: the component would then store [undefined] as
    [base64], outside the type of [imageData]. *)
Definition image_onload (file : File) (dataUrl : string) (s : State) : option State :=
  match base64_of dataUrl with
  | Some b =>
      Some (setImageData (Some (mkImage dataUrl b (file_type file) (file_name file))) s)
  | None => None
  end.

(** [reader.onload] of the text branch. *)
Definition text_onload (text : string) (s : State) : State :=
  setFileContent (Some text) s.

(** [reader.onerror] of the image branch and of the text branch. *)
Definition image_onerror (file : File) (now : Z) (r : N) (s : State) : State :=
  resetInput (addLog now r ("Error reading image file: " ++ file_name file)%string error s).

Definition text_onerror (file : File) (now : Z) (r : N) (s : State) : State :=
  resetInput (addLog now r ("Error reading text file: " ++ file_name file)%string error s).

(** What the [FileReader] comes to. *)
Inductive ReadResult : Type :=
  | Loaded (result : string)
  | ReadFailed.

(** [handleFileRead] together with the callback of its reader, nothing
    happening in between; [now] and [r] are read by the error callback. *)
Definition read_file (file : File) (res : ReadResult) (now : Z) (r : N) (s : State)
  : option State :=
  let s1 := handleFileRead file s in
  match res with
  | Loaded result =>
      if is_image file then image_onload file result s1
      else Some (text_onload result s1)
  | ReadFailed =>
      Some (if is_image file then image_onerror file now r s1
            else text_onerror file now r s1)
  end.

(** [handleFileChange]: [e.target.files?.[0]] may be missing. *)
Definition handleFileChange (file : option File) (s : State) : State :=
  match file with
  | Some f => handleFileRead f s
  | None => s
  end.

(** The [onChange] of the textarea. *)
Definition handlePaste (value : string) (s : State) : State :=
  setPastedContent value (setLogs [] (resetInput s)).

(** *** Drag and drop *)

Record Ui : Type := mkUi {
  app : State;
  isDragOver : bool
}.

Definition handleDrop (file : option File) (u : Ui) : Ui :=
  if isSyncing (app u) then mkUi (app u) false
  else match file with
       | Some f => mkUi (handleFileRead f (app u)) false
       | None => mkUi (app u) false
       end.

Definition handleDragOver (u : Ui) : Ui :=
  if negb (isSyncing (app u)) then mkUi (app u) true else u.

Definition handleDragLeave (u : Ui) : Ui := mkUi (app u) false.

(** *** What the render enables *)

(** [disabled] of the Start Sync button. *)
Definition startDisabled (s : State) : bool :=
  isSyncing s || negb (hasData s) || (syncCompleted s && isSessionPersistent s).

(** [disabled] of the textarea. *)
Definition textareaDisabled (s : State) : bool :=
  isSyncing s || truthy_ostring (fileName s)
  || match imageData s with Some _ => true | None => false end.

(** Whether the Analyze Synced Data button is rendered. *)
Definition analyzeButtonShown (s : State) : bool := syncCompleted s && hasData s.

(** Whether the DataAnalyzer is mounted. *)
Definition analyzerMounted (s : State) : bool := showAnalyzer s && hasData s.

(** *** The inactivity timer *)







(** *** Update now *)

(** [handleUpdateNow]: [window.location.reload()].  The page starts again
    from the [useState] defaults; [sessionStorage] survives the reload. *)
Definition handleUpdateNow (c : Checked) : Checked :=
  mkChecked initial (storage c) [].

(** *** User actions, each taken as one step *)

Inductive Action : Type :=
  | DoLogin (now : Z) (r : N)
  | DoLogout
  | DoReadFile (file : File) (res : ReadResult) (now : Z) (r : N)
  | DoPaste (value : string)
  | DoClear                                  (* Clear Image / Clear File *)
  | DoTogglePersistent (b : bool)
  | DoStartSync (env : Env) (now : Z)
  | DoOpenAnalyzer
  | DoCloseAnalyzer.

(** The state after an action; [None] when a read yields a data URL with no
    comma.  The analyzer button exists only when [analyzeButtonShown]. *)
Definition act (a : Action) (s : State) : option State :=
  match a with
  | DoLogin now r => Some (handleLogin now r s)
  | DoLogout => Some (handleLogout s)
  | DoReadFile file res now r => read_file file res now r s
  | DoPaste value => Some (handlePaste value s)
  | DoClear => Some (resetInput s)
  | DoTogglePersistent b => Some (setIsSessionPersistent b s)
  | DoStartSync env now => Some (handleStartSync env now s)
  | DoOpenAnalyzer =>
      Some (if analyzeButtonShown s then setShowAnalyzer true s else s)
  | DoCloseAnalyzer => Some (setShowAnalyzer false s)
  end.

Fixpoint act_all (l : list Action) (s : State) : option State :=
  match l with
  | [] => Some s
  | a :: rest =>
      match act a s with
      | Some s' => act_all rest s'
      | None => None
      end
  end.

(** At most one kind of payload: a file (name or content), pasted text, or
    an image. *)
Definition one_payload (s : State) : bool :=
  match imageData s with
  | Some _ =>
      negb (truthy_string (pastedContent s))
      && match fileContent s, fileName s with None, None => true | _, _ => false end
  | None =>
      negb (truthy_string (pastedContent s))
      || match fileContent s, fileName s with None, None => true | _, _ => false end
  end.

(** The sum of the delays of a script, the registration delay of each stage
    included. *)
Fixpoint script_duration (script : list Step) : Z :=
  match script with
  | [] => 0
  | step :: rest => 200 + Z.max 0 (delay step) + script_duration rest
  end.

(** Id and message: what of an entry no update touches. *)
Definition key (e : LogEntry) : Z * string := (id e, message e).

Fixpoint has_comma (s : string) : bool :=
  match s with
  | EmptyString => false
  | String c rest => Ascii.eqb c ","%char || has_comma rest
  end.



(** Successive update checks, each with the time it is made at and what the
    fetch comes to; the effects accumulate. *)
Fixpoint poll (checks : list (Z * FetchResult)) (c : Checked) : Checked :=
  match checks with
  | [] => c
  | (now, res) :: rest =>
      let c' := checkForUpdates now res (storage c) (state c) in
      poll rest (mkChecked (state c') (storage c') (effects c ++ effects c'))
  end.

(** What holds of the state between two actions: one kind of payload at
    most, a completed run only over a payload, an open analyzer only after a
    completed run. *)
Definition well_formed (s : State) : bool :=
  one_payload s
  && implb (syncCompleted s) (hasData s)
  && implb (showAnalyzer s) (syncCompleted s).

End Controller.

(** ** Concrete inputs *)

Module Scenario.

(** A browser whose timers are never late and whose [Math.random] is 0. *)
Definition punctual : Env := fun _ => mkTick 0 0 0.

(** A browser with late timers and varying random numbers. *)
Definition jittery : Env :=
  fun k => mkTick (N.of_nat k * 1234567891) (N.of_nat k) 3.

Definition start : Z := 1700000000000.

(** The authenticated application before any input. *)
Definition blank : App.State :=
  App.mkState true [] false false None "" None None false false false None.

Definition pasted (text : string) : App.State :=
  App.mkState true [] false false None text None None false false false None.

Definition hello_world : App.State := pasted "hello world".

(** A text file that turned out empty. *)
Definition empty_file : App.State :=
  App.mkState true [] false false (Some "") "" (Some "empty.txt") None
              false false false None.

(** A run in flight over [hello_world]. *)
Definition syncing : App.State :=
  App.mkState true [mkLog 7 "INITIALIZING PHANTOM_V RUNTIME" pending] true false
              None "hello world" None None false false false None.

Definition picture : App.ImageData :=
  App.mkImage "data:image/png;base64,iVBORw0KGgo=" "iVBORw0KGgo=" "image/png" "cat.png".

Definition image_props : DataAnalyzer.Props :=
  DataAnalyzer.mkProps (Some "") (Some picture).

Definition text_props : DataAnalyzer.Props :=
  DataAnalyzer.mkProps (Some "hello world") None.

Definition no_props : DataAnalyzer.Props := DataAnalyzer.mkProps None None.

Definition four_risks : DataAnalyzer.json :=
  DataAnalyzer.JObject
    [ ("dataType", DataAnalyzer.JString "Text Log");
      ("summary", DataAnalyzer.JString "A greeting drifts through the grid.");
      ("risks", DataAnalyzer.JArray
                  [ DataAnalyzer.JString "API Key"; DataAnalyzer.JString "Password";
                    DataAnalyzer.JString "Private Data"; DataAnalyzer.JString "Token" ]) ].

Definition six_tags : DataAnalyzer.json :=
  DataAnalyzer.JObject
    [ ("description", DataAnalyzer.JString "A chrome feline watches the neon rain.");
      ("tags", DataAnalyzer.JArray
                 [ DataAnalyzer.JString "cat"; DataAnalyzer.JString "neon";
                   DataAnalyzer.JString "rain"; DataAnalyzer.JString "chrome";
                   DataAnalyzer.JString "city"; DataAnalyzer.JString "night" ]);
      ("anomaly", DataAnalyzer.JString "None detected") ].

(** The response [{}]. *)
Definition empty_object : DataAnalyzer.json := DataAnalyzer.JObject [].

(** A state showing an earlier result. *)
Definition showing_result : DataAnalyzer.State :=
  DataAnalyzer.mkState false six_tags None.

Definition notes_file : Controller.File := Controller.mkFile "text/plain" "notes.txt".

Definition cat_file : Controller.File := Controller.mkFile "image/png" "cat.png".

(** A session at work: a file, a run, the analyzer, then new pasted text and
    another run. *)
Definition working_day : list Controller.Action :=
  [ Controller.DoLogin start 7;
    Controller.DoReadFile notes_file (Controller.Loaded "hello world") (start + 1000) 8;
    Controller.DoStartSync jittery (start + 2000);
    Controller.DoOpenAnalyzer;
    Controller.DoCloseAnalyzer;
    Controller.DoReadFile cat_file
      (Controller.Loaded "data:image/png;base64,iVBORw0KGgo=") (start + 20000) 9;
    Controller.DoTogglePersistent true;
    Controller.DoStartSync punctual (start + 30000);
    Controller.DoOpenAnalyzer;
    Controller.DoPaste "second thoughts";
    Controller.DoClear ].

End Scenario.

(** * Properties of the stage simulator *)

Module AppFacts.
Import App.

(** ** Clock and ids *)

Lemma PRECISION_pos : 0 < PRECISION.
Proof. reflexivity. Qed.

Lemma fresh_id_lower (now : Z) (r : N) : now * PRECISION <= fresh_id now r.
Proof.
  unfold fresh_id.
  pose proof (Z.mod_pos_bound (Z.of_N r) PRECISION PRECISION_pos). lia.
Qed.

Lemma fresh_id_upper (now : Z) (r : N) : fresh_id now r < (now + 1) * PRECISION.
Proof.
  unfold fresh_id.
  pose proof (Z.mod_pos_bound (Z.of_N r) PRECISION PRECISION_pos). lia.
Qed.

Lemma sleep_advances (ms : Z) (late : N) (now : Z) : now + Z.max 0 ms <= sleep ms late now.
Proof. unfold sleep. lia. Qed.

Lemma after_stage_advances (t : Tick) (step : Step) (now : Z) :
  now + 200 <= after_stage t step now.
Proof.
  unfold after_stage.
  pose proof (sleep_advances 200 (late_register t) now).
  pose proof (sleep_advances (delay step) (late_delay t) (sleep 200 (late_register t) now)).
  lia.
Qed.

(** ** One status update *)

Lemma set_status_app (i : Z) (st : LogStatus) (l1 l2 : list LogEntry) :
  set_status i st (l1 ++ l2) = set_status i st l1 ++ set_status i st l2.
Proof. apply map_app. Qed.

Lemma set_status_length (i : Z) (st : LogStatus) (l : list LogEntry) :
  List.length (set_status i st l) = List.length l.
Proof. apply length_map. Qed.

(** An update leaves alone a list that does not hold the id. *)
Lemma set_status_absent (i : Z) (st : LogStatus) (l : list LogEntry) :
  ~ In i (map id l) -> set_status i st l = l.
Proof.
  induction l as [|e l IH]; simpl; intros Hni; [reflexivity|].
  destruct (Z.eqb_spec (id e) i) as [Heq|Hne].
  - exfalso. apply Hni. now left.
  - f_equal. apply IH. intros Hin. apply Hni. now right.
Qed.

(** Where ids are distinct, an update changes the entry of that id and no
    other, and keeps every position. *)
Lemma set_status_frame (i : Z) (st : LogStatus) (before after : list LogEntry) (e : LogEntry) :
  NoDup (map id (before ++ e :: after)) ->
  id e = i ->
  set_status i st (before ++ e :: after) = before ++ with_status e st :: after.
Proof.
  intros Hnd He. subst i.
  rewrite map_app in Hnd. simpl in Hnd.
  pose proof (NoDup_remove_2 _ _ _ Hnd) as Hni.
  rewrite set_status_app. simpl.
  rewrite Z.eqb_refl.
  rewrite !set_status_absent; [reflexivity| |].
  - intros Hin. apply Hni. apply in_or_app. now right.
  - intros Hin. apply Hni. apply in_or_app. now left.
Qed.

(** ** The loop against its description *)

Lemma stage_entries_ids (script : list Step) :
  forall env k now e,
    In e (stage_entries env k script now) -> now * PRECISION <= id e.
Proof.
  induction script as [|step rest IH]; simpl; intros env k now e Hin; [contradiction|].
  destruct Hin as [<-|Hin].
  - simpl. apply fresh_id_lower.
  - apply IH in Hin.
    pose proof (after_stage_advances (env k) step now).
    pose proof PRECISION_pos. nia.
Qed.

Lemma stage_entries_NoDup (script : list Step) :
  forall env k now, NoDup (map id (stage_entries env k script now)).
Proof.
  induction script as [|step rest IH]; simpl; intros env k now; constructor.
  - intros Hin. apply in_map_iff in Hin. destruct Hin as [e [He Hin]].
    apply stage_entries_ids in Hin.
    pose proof (fresh_id_upper now (random (env k))).
    pose proof (after_stage_advances (env k) step now).
    pose proof PRECISION_pos. nia.
  - apply IH.
Qed.

Lemma stage_entries_view (script : list Step) :
  forall env k now, map view (stage_entries env k script now) = map step_view script.
Proof.
  induction script as [|step rest IH]; simpl; intros; [reflexivity|].
  now rewrite IH.
Qed.

(** The loop commits what the description says, provided the entries already
    in [cur] were made before [now]. *)
Lemma run_steps_spec (script : list Step) :
  forall env k now cur,
    (forall e, In e cur -> id e < now * PRECISION) ->
    run_steps env k script now cur =
    mkLoop (end_clock env k script now)
           (cur ++ stage_entries env k script now)
           (stage_commits cur (stage_entries env k script now)).
Proof.
  induction script as [|step rest IH]; simpl; intros env k now cur Hold.
  - now rewrite app_nil_r.
  - set (i := fresh_id now (random (env k))).
    assert (Hmapped :
      set_status i (step_status step) (cur ++ [mkLog i (msg step) pending])
      = cur ++ [mkLog i (msg step) (step_status step)]).
    { rewrite set_status_app. simpl. rewrite Z.eqb_refl.
      rewrite set_status_absent; [reflexivity|].
      intros Hin. apply in_map_iff in Hin. destruct Hin as [e [He Hin]].
      apply Hold in Hin. pose proof (fresh_id_lower now (random (env k))).
      subst i. lia. }
    rewrite Hmapped.
    fold (after_stage (env k) step now).
    rewrite IH.
    + simpl. unfold with_status. simpl. fold i.
      now rewrite <- app_assoc.
    + intros e Hin.
      pose proof (after_stage_advances (env k) step now).
      pose proof PRECISION_pos.
      apply in_app_or in Hin. destruct Hin as [Hin|[<-|[]]].
      * apply Hold in Hin. nia.
      * simpl. pose proof (fresh_id_upper now (random (env k))). subst i. nia.
Qed.

(** The [n]-th commit of a run: the first [n/2] entries in final form, then
    entry [n/2], pending when [n] is even and final when [n] is odd. *)
Lemma stage_commits_nth (todo : list LogEntry) :
  forall done n c,
    nth_error (stage_commits done todo) n = Some c ->
    exists e, nth_error todo (Nat.div2 n) = Some e /\
      c = done ++ firstn (Nat.div2 n) todo
          ++ [if Nat.even n then with_status e pending else e].
Proof.
  induction todo as [|e rest IH]; intros done n c Hn.
  - destruct n; discriminate.
  - destruct n as [|[|n]]; simpl in Hn.
    + injection Hn as <-. exists e. split; reflexivity.
    + injection Hn as <-. exists e. split; reflexivity.
    + apply IH in Hn. destruct Hn as [e' [He' ->]].
      exists e'. split; [exact He'|].
      cbn [Nat.div2 firstn Nat.even]. now rewrite <- app_assoc.
Qed.

Lemma stage_commits_length (todo : list LogEntry) :
  forall done, List.length (stage_commits done todo) = (2 * List.length todo)%nat.
Proof.
  induction todo as [|e rest IH]; intros done; simpl; [reflexivity|].
  rewrite IH. lia.
Qed.

Lemma was_pending_complete (e : LogEntry) (trace : list State) :
  (exists c, In c trace /\ In (with_status e pending) (logs c)) ->
  was_pending e trace = true.
Proof.
  intros [c [Hc Hin]]. unfold was_pending.
  apply existsb_exists. exists c. split; [exact Hc|].
  apply existsb_exists. exists (with_status e pending). split; [exact Hin|].
  unfold LogEntry_eqb. rewrite Z.eqb_refl, String.eqb_refl. reflexivity.
Qed.

Lemma end_clock_advances (script : list Step) :
  forall env k now, now <= end_clock env k script now.
Proof.
  induction script as [|step rest IH]; simpl; intros env k now; [lia|].
  pose proof (IH env (S k) (after_stage (env k) step now)).
  pose proof (after_stage_advances (env k) step now). lia.
Qed.

Lemma stage_entries_ids_upper (script : list Step) :
  forall env k now e,
    In e (stage_entries env k script now) ->
    id e < end_clock env k script now * PRECISION.
Proof.
  induction script as [|step rest IH]; simpl; intros env k now e Hin; [contradiction|].
  destruct Hin as [<-|Hin].
  - simpl. pose proof (fresh_id_upper now (random (env k))).
    pose proof (end_clock_advances rest env (S k) (after_stage (env k) step now)).
    pose proof (after_stage_advances (env k) step now).
    pose proof PRECISION_pos. nia.
  - now apply IH.
Qed.

(** Every entry of a commit is an earlier entry or a stage entry, pending or
    in final form. *)
Lemma stage_commits_members (todo : list LogEntry) :
  forall done c x,
    In c (stage_commits done todo) -> In x c ->
    In x done \/ exists e, In e todo /\ (x = e \/ x = with_status e pending).
Proof.
  induction todo as [|e rest IH]; simpl; intros done c x Hc Hx; [contradiction|].
  destruct Hc as [<-|[<-|Hc]].
  - apply in_app_or in Hx. destruct Hx as [Hx|[<-|[]]]; [now left|].
    right. exists e. split; [now left|now right].
  - apply in_app_or in Hx. destruct Hx as [Hx|[<-|[]]]; [now left|].
    right. exists e. split; [now left|now left].
  - destruct (IH _ _ _ Hc Hx) as [Hd|[e' [He' Hx']]].
    + apply in_app_or in Hd. destruct Hd as [Hd|[<-|[]]]; [now left|].
      right. exists e. split; [now left|now left].
    + right. exists e'. split; [now right|exact Hx'].
Qed.

(** ** Accepted and rejected calls of [handleStartSync] *)

Lemma no_payload_hasData (s : State) : no_payload s = negb (hasData s).
Proof.
  unfold no_payload, hasData.
  destruct (truthy_ostring (fileContent s)), (truthy_string (pastedContent s)),
    (imageData s); reflexivity.
Qed.

Lemma handleStartSync_rejected (env : Env) (now : Z) (s : State) :
  isSyncing s = true \/ hasData s = false ->
  handleStartSync_commits env now s = [].
Proof.
  unfold handleStartSync_commits. rewrite no_payload_hasData.
  intros [->| ->]; [reflexivity|]. now rewrite orb_true_r.
Qed.

(** What the log store holds at each commit of an accepted call. *)
Lemma handleStartSync_accepted (env : Env) (now : Z) (s : State) :
  isSyncing s = false -> hasData s = true ->
  map logs (handleStartSync_commits env now s) =
  stage_commits [] (stage_entries env 0 (steps s) now)
  ++ [stage_entries env 0 (steps s) now ++ [trailing_entry env now s]].
Proof.
  intros Hs Hd. unfold handleStartSync_commits.
  rewrite no_payload_hasData, Hs, Hd.
  cbn [orb negb].
  rewrite run_steps_spec by (intros e []).
  cbn [clock currentLogs commits app].
  rewrite map_app, map_map. cbn [map].
  rewrite (map_ext _ (fun l => l)) by reflexivity.
  now rewrite map_id.
Qed.

Lemma handleStartSync_final (env : Env) (now : Z) (s : State) :
  isSyncing s = false -> hasData s = true ->
  handleStartSync env now s =
  setIsSyncing false
    (setSyncCompleted true
       (setLogs (stage_entries env 0 (steps s) now ++ [trailing_entry env now s]) s)).
Proof.
  intros Hs Hd. unfold handleStartSync, handleStartSync_commits.
  rewrite no_payload_hasData, Hs, Hd.
  cbn [orb negb].
  rewrite run_steps_spec by (intros e []).
  cbn [clock currentLogs commits app].
  rewrite last_last. reflexivity.
Qed.

Lemma trailing_entry_id_lower (env : Env) (now : Z) (s : State) :
  end_clock env 0 (steps s) now * PRECISION <= id (trailing_entry env now s).
Proof. unfold trailing_entry. cbn [id]. apply fresh_id_lower. Qed.

Lemma trailing_entry_status (env : Env) (now : Z) (s : State) :
  status (trailing_entry env now s) = info.
Proof. reflexivity. Qed.

(** No commit of an accepted run shows the trailing entry pending. *)
Lemma trailing_entry_not_pending (env : Env) (now : Z) (s : State) :
  isSyncing s = false -> hasData s = true ->
  was_pending (trailing_entry env now s) (handleStartSync_commits env now s) = false.
Proof.
  intros Hs Hd.
  destruct (was_pending (trailing_entry env now s) (handleStartSync_commits env now s))
    eqn:Hwp; [exfalso|reflexivity].
  unfold was_pending in Hwp.
  apply existsb_exists in Hwp. destruct Hwp as [c [Hc Hx]].
  apply existsb_exists in Hx. destruct Hx as [x [Hx Heq]].
  apply (in_map logs) in Hc.
  rewrite (handleStartSync_accepted env now s Hs Hd) in Hc.
  pose proof (trailing_entry_id_lower env now s) as Hlow.
  pose proof (trailing_entry_status env now s) as Hinfo.
  assert (Hstage : forall e, In e (stage_entries env 0 (steps s) now) ->
                   id e < end_clock env 0 (steps s) now * PRECISION)
    by (intros e He; now apply stage_entries_ids_upper in He).
  (* from here on the script, the clock and the entries are opaque *)
  generalize dependent (trailing_entry env now s). intros last_entry.
  generalize dependent (stage_entries env 0 (steps s) now). intros entries.
  generalize dependent (end_clock env 0 (steps s) now). intros finish.
  intros Hstage Hc Heq Hlow Hinfo.
  unfold LogEntry_eqb in Heq.
  apply andb_prop in Heq. destruct Heq as [Heq Hst].
  apply andb_prop in Heq. destruct Heq as [Hid _].
  apply Z.eqb_eq in Hid. cbn [with_status id status] in Hid, Hst.
  apply in_app_or in Hc. destruct Hc as [Hc|[Hc|[]]].
  - destruct (stage_commits_members _ _ _ _ Hc Hx) as [[]|[e [He Hxe]]].
    apply Hstage in He.
    assert (id x = id e) by (destruct Hxe as [->| ->]; reflexivity).
    lia.
  - rewrite <- Hc in Hx.
    apply in_app_or in Hx. destruct Hx as [Hx|[Hx|[]]].
    + apply Hstage in Hx. lia.
    + rewrite <- Hx, Hinfo in Hst. discriminate Hst.
Qed.

End AppFacts.

(** * The claims about the stage simulator *)

Module Simulator.
Import App AppFacts.

(** C1. Whatever the script, the loop leaves one entry per stage, in script
    order, each with the message and the status scripted for it.  An accepted
    run over the fixed script ends with its nine entries in the fixed message
    order, the sixth with status error and the entries after it still there,
    the last two with status success, followed by one info entry about
    session persistence; the run is then marked complete and no longer
    active. *)
Theorem run_appends_one_entry_per_stage (env : Env) (now : Z) (s : State) :
  isSyncing s = false ->
  hasData s = true ->
  (forall script k t,
      map view (currentLogs (run_steps env k script t [])) = map step_view script)
  /\ logs (handleStartSync env now s)
     = stage_entries env 0 (steps s) now ++ [trailing_entry env now s]
  /\ map view (logs (handleStartSync env now s))
     = [ ("INITIALIZING PHANTOM_V RUNTIME", info);
         (("PROCESSING DATA: " ++ dataName s)%string, info);
         ("ESTABLISHING SECURE CONNECTION", info);
         ("ANALYZING DATA STRUCTURE", info);
         ("ATTEMPTING KERNEL-LEVEL SYNC", info);
         ("SYNC FAILED: ACCESS RESTRICTED.", error);
         ("FALLBACK TO PAYLOAD INJECTION", info);
         (("SUCCESS: " ++ dataSize s ++ " SYNCED.")%string, success);
         ("SYNC COMPLETE. STANDBY.", success);
         (persistence_message (isSessionPersistent s), info) ]
  /\ isSyncing (handleStartSync env now s) = false
  /\ syncCompleted (handleStartSync env now s) = true.
Proof.
  intros Hs Hd. split; [|rewrite (handleStartSync_final env now s Hs Hd); repeat split].
  - intros script k t.
    rewrite run_steps_spec by (intros e []).
    cbn [currentLogs app]. apply stage_entries_view.
Qed.

Lemma run_appends_one_entry_per_stage_witness :
  isSyncing Scenario.hello_world = false
  /\ hasData Scenario.hello_world = true
  /\ map view (logs (handleStartSync Scenario.jittery Scenario.start Scenario.hello_world))
     = [ ("INITIALIZING PHANTOM_V RUNTIME", info);
         ("PROCESSING DATA: Pasted Content", info);
         ("ESTABLISHING SECURE CONNECTION", info);
         ("ANALYZING DATA STRUCTURE", info);
         ("ATTEMPTING KERNEL-LEVEL SYNC", info);
         ("SYNC FAILED: ACCESS RESTRICTED.", error);
         ("FALLBACK TO PAYLOAD INJECTION", info);
         ("SUCCESS: 11 chars SYNCED.", success);
         ("SYNC COMPLETE. STANDBY.", success);
         ("SESSION PERSISTENCE DISABLED. CLEARING INPUT ON NEXT ACTION.", info) ].
Proof.
  split; [reflexivity|]. split; [reflexivity|].
  apply (run_appends_one_entry_per_stage
           Scenario.jittery Scenario.start Scenario.hello_world);
    reflexivity.
Defined.

(** C3. A call of the run trigger while a run is active, or with no text, no
    pasted content and no image, commits no state at all: the application
    stays exactly as it was, log store included, and no stage sequence
    starts. *)
Theorem rejected_run_changes_nothing (env : Env) (now : Z) (s : State) :
  isSyncing s = true \/ hasData s = false ->
  handleStartSync_commits env now s = []
  /\ handleStartSync env now s = s
  /\ logs (handleStartSync env now s) = logs s.
Proof.
  intros H. unfold handleStartSync.
  rewrite (handleStartSync_rejected env now s H). repeat split.
Qed.

Lemma rejected_run_changes_nothing_witness :
  (handleStartSync_commits Scenario.punctual Scenario.start Scenario.syncing = []
   /\ handleStartSync Scenario.punctual Scenario.start Scenario.syncing = Scenario.syncing
   /\ logs (handleStartSync Scenario.punctual Scenario.start Scenario.syncing)
      = logs Scenario.syncing)
  /\ (handleStartSync_commits Scenario.punctual Scenario.start Scenario.blank = []
      /\ handleStartSync Scenario.punctual Scenario.start Scenario.blank = Scenario.blank
      /\ logs (handleStartSync Scenario.punctual Scenario.start Scenario.blank)
         = logs Scenario.blank).
Proof.
  split.
  - apply (rejected_run_changes_nothing Scenario.punctual Scenario.start Scenario.syncing).
    left. reflexivity.
  - apply (rejected_run_changes_nothing Scenario.punctual Scenario.start Scenario.blank).
    right. reflexivity.
Defined.

(** C7, as stated, fails: it asks that every entry of the log store was once
    pending.  In the run over "hello world" the entry about session
    persistence is in the log store at the end, and no commit of the run
    shows it pending: [addLog] creates it with status info. *)
Lemma trailing_entry_was_never_pending :
  ~ (forall e,
        In e (logs (handleStartSync Scenario.punctual Scenario.start Scenario.hello_world)) ->
        exists c,
          In c (handleStartSync_commits Scenario.punctual Scenario.start Scenario.hello_world)
          /\ In (with_status e pending) (logs c)).
Proof.
  intros H.
  specialize (H (trailing_entry Scenario.punctual Scenario.start Scenario.hello_world)).
  assert (Hin : In (trailing_entry Scenario.punctual Scenario.start Scenario.hello_world)
                   (logs (handleStartSync Scenario.punctual Scenario.start
                                          Scenario.hello_world))).
  { rewrite handleStartSync_final by reflexivity.
    cbn [logs setIsSyncing setSyncCompleted setLogs].
    apply in_or_app. right. now left. }
  apply H in Hin. apply was_pending_complete in Hin.
  vm_compute in Hin. discriminate.
Qed.

(** C7, amended.  In an accepted run the ids of the stage entries are pairwise
    distinct, and the log store goes through these contents: stage by stage,
    the entries of the earlier stages in final form followed by the new entry,
    first pending, then with its scripted status; so commit [n] differs from
    the one before only in entry [n/2], which is new (n even) or changes
    from pending to its scripted status (n odd), and every stage entry
    changes status exactly once.  An update of the entry of some id in a
    list of distinct ids yields the same list with that entry replaced by a
    copy bearing the new status.  The entry about session persistence is
    appended last, with status info, and was never pending. *)
Theorem stage_status_updates (env : Env) (now : Z) (s : State) :
  isSyncing s = false ->
  hasData s = true ->
  let entries := stage_entries env 0 (steps s) now in
  NoDup (map id entries)
  /\ map logs (handleStartSync_commits env now s)
     = stage_commits [] entries ++ [entries ++ [trailing_entry env now s]]
  /\ (forall n c,
        nth_error (stage_commits [] entries) n = Some c ->
        exists e,
          nth_error entries (Nat.div2 n) = Some e
          /\ c = firstn (Nat.div2 n) entries
                 ++ [if Nat.even n then with_status e pending else e])
  /\ (forall i st before e after,
        NoDup (map id (before ++ e :: after)) ->
        id e = i ->
        set_status i st (before ++ e :: after) = before ++ with_status e st :: after)
  /\ was_pending (trailing_entry env now s) (handleStartSync_commits env now s) = false.
Proof.
  intros Hs Hd entries. split; [apply stage_entries_NoDup|].
  split; [apply (handleStartSync_accepted env now s Hs Hd)|].
  split; [intros n c Hn; apply (stage_commits_nth entries [] n c Hn)|].
  split; [intros i st before e after; apply set_status_frame|].
  apply (trailing_entry_not_pending env now s Hs Hd).
Qed.

Lemma stage_status_updates_witness :
  isSyncing Scenario.hello_world = false
  /\ hasData Scenario.hello_world = true
  /\ was_pending (trailing_entry Scenario.jittery Scenario.start Scenario.hello_world)
       (handleStartSync_commits Scenario.jittery Scenario.start Scenario.hello_world)
     = false
  /\ set_status 2 error [mkLog 1 "a" info; mkLog 2 "b" pending; mkLog 3 "c" pending]
     = [mkLog 1 "a" info; mkLog 2 "b" error; mkLog 3 "c" pending].
Proof.
  split; [reflexivity|]. split; [reflexivity|].
  destruct (stage_status_updates Scenario.jittery Scenario.start Scenario.hello_world
              eq_refl eq_refl) as [_ [_ [_ [Hframe Hlast]]]].
  split; [exact Hlast|].
  apply (Hframe 2 error [mkLog 1 "a" info] (mkLog 2 "b" pending) [mkLog 3 "c" pending]);
    [|reflexivity].
  cbn [map app id]. repeat constructor; cbn [In]; intuition discriminate.
Defined.

(** C8. Take the update check in a state that is not snoozed, with no revision
    stored.  A first check that fetches revision [r1] stores it and raises no
    notification.  A later check that fetches a different revision [r2]
    raises exactly one notification (the update modal) and keeps [r1]
    stored.  After [handleSnooze 10] at time [t3], a check at any time before
    [t3] plus ten minutes does nothing, whatever the endpoint would have
    answered: no request, no notification, the modal stays closed. *)
Theorem update_check_scenario
        (s : State) (t1 t2 t3 t4 st1 st2 : Z) (r1 r2 : string) (res : FetchResult) :
  snoozed t1 s = false ->
  snoozed t2 s = false ->
  ok st1 = true ->
  ok st2 = true ->
  r1 <> "" ->
  r2 <> r1 ->
  0 <= t3 ->
  t4 < t3 + 10 * 60 * 1000 ->
  let c1 := checkForUpdates t1 (Response st1 r1) None s in
  let c2 := checkForUpdates t2 (Response st2 r2) (storage c1) (state c1) in
  let s3 := handleSnooze t3 10 (state c2) in
  let c4 := checkForUpdates t4 res (storage c2) s3 in
  (storage c1 = Some r1 /\ state c1 = s /\ notifications (effects c1) = 0%nat)
  /\ (storage c2 = Some r1 /\ showUpdateModal (state c2) = true
      /\ notifications (effects c2) = 1%nat)
  /\ (showUpdateModal s3 = false /\ snoozeUntil s3 = Some (t3 + 10 * 60 * 1000))
  /\ (state c4 = s3 /\ storage c4 = Some r1 /\ effects c4 = []).
Proof.
  intros Hz1 Hz2 Hok1 Hok2 Hr1 Hr2 Ht3 Ht4. cbv zeta.
  assert (E1 : checkForUpdates t1 (Response st1 r1) None s = mkChecked s (Some r1) [Fetch]).
  { unfold checkForUpdates. now rewrite Hz1, Hok1. }
  rewrite E1. cbn [state storage effects].
  assert (Htr : truthy_string r1 = true).
  { unfold truthy_string. destruct (String.eqb_spec r1 ""); [contradiction|reflexivity]. }
  assert (Hne : (r1 =? r2)%string = false).
  { destruct (String.eqb_spec r1 r2); [subst; contradiction|reflexivity]. }
  assert (E2 : checkForUpdates t2 (Response st2 r2) (Some r1) s
               = mkChecked (setShowUpdateModal true s) (Some r1)
                           (Fetch :: RaiseModal :: alert s)).
  { unfold checkForUpdates. now rewrite Hz2, Hok2, Htr, Hne. }
  rewrite E2. cbn [state storage effects].
  assert (E4 : snoozed t4 (handleSnooze t3 10 (setShowUpdateModal true s)) = true).
  { unfold snoozed, handleSnooze. cbn [snoozeUntil setShowUpdateModal setSnoozeUntil].
    apply andb_true_intro. split.
    - apply negb_true_iff. apply Z.eqb_neq. lia.
    - apply Z.ltb_lt. lia. }
  repeat split.
  - unfold alert. destruct (isAuthenticated s); reflexivity.
  - unfold checkForUpdates. now rewrite E4.
  - unfold checkForUpdates. now rewrite E4.
  - unfold checkForUpdates. now rewrite E4.
Qed.

Lemma update_check_scenario_witness :
  snoozed 1700000000000 Scenario.blank = false
  /\ ok 200 = true
  /\ notifications
       (effects (checkForUpdates 1700000000000 (Response 200 "3f2a9c1") None Scenario.blank))
     = 0%nat
  /\ notifications
       (effects (checkForUpdates 1700000600000 (Response 200 "77b0e4d") (Some "3f2a9c1")
                                 Scenario.blank))
     = 1%nat
  /\ effects (checkForUpdates 1700001200000 (Response 200 "c01dbee") (Some "3f2a9c1")
                (handleSnooze 1700000605000 10 (setShowUpdateModal true Scenario.blank)))
     = [].
Proof.
  split; [reflexivity|]. split; [reflexivity|].
  assert (H := update_check_scenario Scenario.blank
                 1700000000000 1700000600000 1700000605000 1700001200000 200 200
                 "3f2a9c1" "77b0e4d" (Response 200 "c01dbee")).
  cbv zeta in H.
  assert (Hne1 : "3f2a9c1" <> "") by discriminate.
  assert (Hne2 : "77b0e4d" <> "3f2a9c1") by discriminate.
  assert (Hpos : 0 <= 1700000605000) by lia.
  assert (Hwin : 1700001200000 < 1700000605000 + 10 * 60 * 1000) by lia.
  specialize (H eq_refl eq_refl eq_refl eq_refl Hne1 Hne2 Hpos Hwin).
  destruct H as [[_ [_ H1]] [[_ [_ H2]] [_ [_ [_ H4]]]]].
  split; [exact H1|]. split; [exact H2|exact H4].
Defined.

End Simulator.

(** * The claims about the analysis client *)

Module Analysis.
Import DataAnalyzer.

Lemma isImageAnalysis_spec (r : json) :
  isImageAnalysis r = true <->
  exists members d items,
    r = JObject members
    /\ lookup "description" members = Some (JString d)
    /\ lookup "tags" members = Some (JArray items).
Proof.
  unfold isImageAnalysis, is_string, is_array, get. split.
  - intros H. apply andb_prop in H. destruct H as [H Ht].
    apply andb_prop in H. destruct H as [_ Hd].
    destruct r as [|b|q|t|l|members]; try discriminate Hd.
    destruct (lookup "description" members) as [[|b|q|d|l|m]|] eqn:Ed;
      try discriminate Hd.
    destruct (lookup "tags" members) as [[|b|q|t|items|m]|] eqn:Et;
      try discriminate Ht.
    exists members, d, items. repeat split; assumption.
  - intros [members [d [items [-> [Hd Ht]]]]]. now rewrite Hd, Ht.
Qed.

(** A successful call stores the parsed response as it is. *)
Lemma analyze_success (p : Props) (r : json) (s : State) :
  request_for p <> None ->
  analyze p (Body (Some r)) s = mkState false r None.
Proof.
  unfold analyze, handleAnalyze. destruct (request_for p); [reflexivity|congruence].
Qed.

Lemma analyze_failure (p : Props) (o : Outcome) (s : State) :
  failure o = true -> analyze p o s = failed.
Proof.
  unfold analyze, handleAnalyze.
  destruct (request_for p) as [rq|]; [|reflexivity].
  destruct o as [|code|[r|]]; try reflexivity. discriminate.
Qed.

(** C2. Whatever request was sent, a response that parses to [r] (any JSON
    value that is not one of the falsy primitives; every object qualifies)
    becomes the result as it is.  The render takes the image branch exactly
    when [isImageAnalysis] holds of it, which is exactly when it is an object
    with a string member [description] and an array member [tags]; otherwise
    it takes the text branch, with the result as [textAnalysis].  The text
    branch shows the text panel when [risks] is an array, and throws a
    TypeError on [risks.length] when [risks] is missing or null. *)
Theorem response_classified_by_shape (p : Props) (r : json) (s : State) :
  request_for p <> None ->
  truthy r = true ->
  analysis (analyze p (Body (Some r)) s) = r
  /\ renderContent p (analyze p (Body (Some r)) s)
     = (if isImageAnalysis r then ImagePanel r else text_panel r)
  /\ (isImageAnalysis r = true <->
      exists members d items,
        r = JObject members
        /\ lookup "description" members = Some (JString d)
        /\ lookup "tags" members = Some (JArray items))
  /\ (forall items, get "risks" r = Some (JArray items) -> text_panel r = TextPanel r)
  /\ (get "risks" r = None \/ get "risks" r = Some JNull -> text_panel r = RenderError).
Proof.
  intros Hp Hr. rewrite (analyze_success p r s Hp). split; [reflexivity|].
  split; [|split; [|split]].
  - unfold renderContent. cbn [isLoading error analysis truthy_ostring]. now rewrite Hr.
  - apply isImageAnalysis_spec.
  - intros items Hi. unfold text_panel, risks_section. rewrite Hi.
    now destruct items.
  - intros [Hn|Hn]; unfold text_panel, risks_section; now rewrite Hn.
Qed.

Lemma response_classified_by_shape_witness :
  request_for Scenario.text_props <> None
  /\ truthy Scenario.six_tags = true
  /\ renderContent Scenario.text_props
       (analyze Scenario.text_props (Body (Some Scenario.six_tags)) initial)
     = ImagePanel Scenario.six_tags
  /\ renderContent Scenario.image_props
       (analyze Scenario.image_props (Body (Some Scenario.four_risks)) initial)
     = TextPanel Scenario.four_risks
  /\ renderContent Scenario.text_props
       (analyze Scenario.text_props (Body (Some Scenario.empty_object)) initial)
     = RenderError.
Proof.
  assert (Htext : request_for Scenario.text_props <> None) by discriminate.
  assert (Himage : request_for Scenario.image_props <> None) by discriminate.
  split; [exact Htext|]. split; [reflexivity|]. split; [|split].
  - destruct (response_classified_by_shape Scenario.text_props Scenario.six_tags initial
                Htext eq_refl) as [_ [H _]].
    exact H.
  - destruct (response_classified_by_shape Scenario.image_props Scenario.four_risks initial
                Himage eq_refl) as [_ [H _]].
    exact H.
  - destruct (response_classified_by_shape Scenario.text_props Scenario.empty_object initial
                Htext eq_refl) as [_ [H _]].
    exact H.
Defined.




(** C5, as stated, fails: when the response is the empty object, the result
    for an image payload has neither [description] nor [tags], and the result
    for a text payload has neither [dataType] nor [summary]. *)
Lemma empty_object_returned :
  (request_for Scenario.image_props = Some (image_request Scenario.picture)
   /\ analyze Scenario.image_props (Body (Some Scenario.empty_object)) initial
      = mkState false Scenario.empty_object None
   /\ has "description" Scenario.empty_object = false
   /\ has "tags" Scenario.empty_object = false)
  /\ (request_for Scenario.text_props = Some (text_request "hello world")
      /\ analyze Scenario.text_props (Body (Some Scenario.empty_object)) initial
         = mkState false Scenario.empty_object None
      /\ has "dataType" Scenario.empty_object = false
      /\ has "summary" Scenario.empty_object = false).
Proof. repeat split. Qed.

(** C5, amended.  For an image payload the one request sent asks for a JSON
    object whose schema marks [description], [tags] and [anomaly] as
    required; for a text payload (no image, non-empty text) it marks
    [dataType], [summary] and [risks] as required.  The result is the parsed
    response as it is, never checked: it has [description] and [tags]
    (image payload), or [dataType] and [summary] (text payload), whenever the
    response honours the required fields of the schema that was sent. *)
Theorem analyze_requests_required_fields
        (p : Props) (rq : Request) (r : json) (s : State) :
  request_for p = Some rq ->
  requests (handleAnalyze p (Body (Some r))) = [rq]
  /\ analysis (analyze p (Body (Some r)) s) = r
  /\ (forall img, imageData p = Some img ->
      rq = image_request img
      /\ required (responseSchema rq) = ["description"; "tags"; "anomaly"]
      /\ (honours (responseSchema rq) r = true ->
          has "description" (analysis (analyze p (Body (Some r)) s)) = true
          /\ has "tags" (analysis (analyze p (Body (Some r)) s)) = true))
  /\ (forall t, imageData p = None -> textContent p = Some t ->
      rq = text_request t
      /\ required (responseSchema rq) = ["dataType"; "summary"; "risks"]
      /\ (honours (responseSchema rq) r = true ->
          has "dataType" (analysis (analyze p (Body (Some r)) s)) = true
          /\ has "summary" (analysis (analyze p (Body (Some r)) s)) = true)).
Proof.
  intros Hp.
  assert (Hne : request_for p <> None) by congruence.
  rewrite (analyze_success p r s Hne). cbn [analysis].
  split; [unfold handleAnalyze; now rewrite Hp|].
  split; [reflexivity|]. split.
  - intros img Hi. unfold request_for in Hp. rewrite Hi in Hp.
    injection Hp as <-. split; [reflexivity|]. split; [reflexivity|].
    unfold honours. cbn [required responseSchema image_request image_schema forallb].
    intros H. apply andb_prop in H. destruct H as [Hd H].
    apply andb_prop in H. destruct H as [Ht _]. now split.
  - intros t Hi Ht. unfold request_for in Hp. rewrite Hi, Ht in Hp.
    destruct (truthy_string t); [|discriminate Hp].
    injection Hp as <-. split; [reflexivity|]. split; [reflexivity|].
    unfold honours. cbn [required responseSchema text_request text_schema forallb].
    intros H. apply andb_prop in H. destruct H as [Hd H].
    apply andb_prop in H. destruct H as [Hs _]. now split.
Qed.

Lemma analyze_requests_required_fields_witness :
  request_for Scenario.image_props = Some (image_request Scenario.picture)
  /\ honours image_schema Scenario.six_tags = true
  /\ has "description"
       (analysis (analyze Scenario.image_props (Body (Some Scenario.six_tags)) initial))
     = true
  /\ has "tags"
       (analysis (analyze Scenario.image_props (Body (Some Scenario.six_tags)) initial))
     = true.
Proof.
  split; [reflexivity|]. split; [reflexivity|].
  destruct (analyze_requests_required_fields
              Scenario.image_props (image_request Scenario.picture)
              Scenario.six_tags initial eq_refl) as [_ [_ [Himage _]]].
  apply (Himage Scenario.picture eq_refl). reflexivity.
Defined.

(** C6, as stated, fails: a call with no payload does change the state.  From
    the initial state it sets the error message; from a state showing a
    result it also clears the result. *)
Lemma no_payload_call_mutates_state :
  analyze Scenario.no_props NetworkFailure initial <> initial
  /\ error (analyze Scenario.no_props NetworkFailure initial) = Some ANALYSIS_FAILED
  /\ analysis Scenario.showing_result = Scenario.six_tags
  /\ analysis (analyze Scenario.no_props NetworkFailure Scenario.showing_result) = JNull.
Proof. repeat split. discriminate. Qed.

(** C6, amended.  A call with neither image data nor text content sends no
    request and commits a single state, without suspending: not loading, no
    result, and the same generic failure message as any other failure, which
    is then what is shown. *)
Theorem no_payload_fails_without_request (o : Outcome) (s : State) :
  handleAnalyze (mkProps None None) o = mkRun [] [failed]
  /\ requests (handleAnalyze (mkProps None None) o) = []
  /\ analyze (mkProps None None) o s = mkState false JNull (Some ANALYSIS_FAILED)
  /\ renderContent (mkProps None None) (analyze (mkProps None None) o s)
     = ErrorPanel ANALYSIS_FAILED.
Proof. repeat split. Qed.

(** C9. A network failure, a non-success status and a body that does not
    parse all leave the same state behind: not loading, no result, the one
    generic failure message, shown as the error panel.  At most one request
    is sent by the call, none again after the failure.  In no state committed
    by any call, failed or not, is a result present together with an
    error. *)
Theorem failures_surface_as_one_error (p : Props) (o : Outcome) (s : State) :
  failure o = true ->
  analyze p o s = mkState false JNull (Some ANALYSIS_FAILED)
  /\ renderContent p (analyze p o s) = ErrorPanel ANALYSIS_FAILED
  /\ requests (handleAnalyze p o)
     = match request_for p with Some rq => [rq] | None => [] end
  /\ (forall code, analyze p NetworkFailure s = analyze p (BadStatus code) s
                   /\ analyze p (BadStatus code) s = analyze p (Body None) s)
  /\ (forall o' st, In st (commits (handleAnalyze p o')) ->
                    error st <> None -> analysis st = JNull).
Proof.
  intros Hf. rewrite (analyze_failure p o s Hf). split; [reflexivity|].
  split; [reflexivity|]. split; [|split].
  - unfold handleAnalyze. destruct (request_for p) as [rq|]; [|reflexivity].
    destruct o as [|code|[r|]]; reflexivity.
  - intros code. rewrite !analyze_failure by reflexivity. split; reflexivity.
  - intros o' st Hin He. unfold handleAnalyze in Hin.
    destruct (request_for p) as [rq|].
    + destruct o' as [|code|[r|]]; cbn [commits In] in Hin;
        destruct Hin as [<-|[<-|[]]]; try reflexivity; now elim He.
    + cbn [commits In] in Hin. destruct Hin as [<-|[]]. reflexivity.
Qed.

Lemma failures_surface_as_one_error_witness :
  failure (BadStatus 503) = true
  /\ analyze Scenario.text_props (BadStatus 503) Scenario.showing_result
     = mkState false JNull (Some ANALYSIS_FAILED).
Proof.
  split; [reflexivity|].
  apply (failures_surface_as_one_error
           Scenario.text_props (BadStatus 503) Scenario.showing_result).
  reflexivity.
Defined.

(** C10. With no image, nothing pasted and a file content that is the empty
    string, the application has no data: the run trigger commits nothing and
    leaves the state, log store included, as it was.  The analyzer mounted on
    such a state gets the empty string as its text and behaves exactly as
    with no text at all: it sends no request and ends in the failure state. *)
Theorem empty_text_is_no_payload
        (env : Env) (now : Z) (s : App.State) (o : Outcome) (st : State) :
  App.imageData s = None ->
  App.pastedContent s = "" ->
  App.fileContent s = Some "" ->
  App.hasData s = false
  /\ App.handleStartSync_commits env now s = []
  /\ App.handleStartSync env now s = s
  /\ props_of s = mkProps (Some "") None
  /\ request_for (props_of s) = None
  /\ handleAnalyze (props_of s) o = handleAnalyze (mkProps None None) o
  /\ requests (handleAnalyze (props_of s) o) = []
  /\ analyze (props_of s) o st = failed.
Proof.
  intros Hi Hp Hf.
  assert (Hd : App.hasData s = false) by (unfold App.hasData; now rewrite Hi, Hp, Hf).
  assert (Hprops : props_of s = mkProps (Some "") None)
    by (unfold props_of; now rewrite Hi, Hp, Hf).
  split; [exact Hd|].
  split; [apply AppFacts.handleStartSync_rejected; now right|].
  split; [unfold App.handleStartSync;
          rewrite AppFacts.handleStartSync_rejected by (now right); reflexivity|].
  rewrite Hprops. repeat split.
Qed.

Lemma empty_text_is_no_payload_witness :
  App.handleStartSync Scenario.punctual Scenario.start Scenario.empty_file
  = Scenario.empty_file
  /\ requests (handleAnalyze (props_of Scenario.empty_file) (Body (Some Scenario.four_risks)))
     = [].
Proof.
  split;
    apply (empty_text_is_no_payload Scenario.punctual Scenario.start Scenario.empty_file
             (Body (Some Scenario.four_risks)) initial);
    reflexivity.
Defined.

End Analysis.

(** * More about the stage simulator *)

Module RunFacts.
Import App AppFacts Controller.

(** ** Lists *)

Lemma firstn_snoc_nth {A : Type} (l : list A) :
  forall k e, nth_error l k = Some e -> firstn k l ++ [e] = firstn (S k) l.
Proof.
  induction l as [|a l IH]; intros [|k] e H; try discriminate.
  - injection H as <-. reflexivity.
  - cbn [nth_error] in H.
    change (a :: firstn k l ++ [e] = a :: firstn (S k) l).
    f_equal. now apply IH.
Qed.

Lemma NoDup_firstn {A : Type} (n : nat) (l : list A) : NoDup l -> NoDup (firstn n l).
Proof.
  intros H. rewrite <- (firstn_skipn n l) in H.
  now apply NoDup_app_remove_r in H.
Qed.

(** ** The commits of a run, for any entries *)

Section Commits.

Variable entries : list LogEntry.
Variable last_entry : LogEntry.

Let all_commits : list (list LogEntry) :=
  stage_commits [] entries ++ [entries ++ [last_entry]].

Lemma all_commits_length : List.length all_commits = (2 * List.length entries + 1)%nat.
Proof.
  unfold all_commits. rewrite length_app, stage_commits_length. reflexivity.
Qed.

(** A commit is the stage commit of that number, or the last one. *)
Lemma all_commits_nth (n : nat) (c : list LogEntry) :
  nth_error all_commits n = Some c ->
  (n < 2 * List.length entries)%nat
  /\ (exists e, nth_error entries (Nat.div2 n) = Some e
               /\ c = firstn (Nat.div2 n) entries
                      ++ [if Nat.even n then with_status e pending else e])
  \/ n = (2 * List.length entries)%nat /\ c = entries ++ [last_entry].
Proof.
  intros H. unfold all_commits in H.
  destruct (Nat.lt_ge_cases n (2 * List.length entries)) as [Hlt|Hge].
  - left. split; [exact Hlt|].
    rewrite nth_error_app1 in H by (now rewrite stage_commits_length).
    apply (stage_commits_nth entries [] n c H).
  - right.
    rewrite nth_error_app2 in H by (now rewrite stage_commits_length).
    rewrite stage_commits_length in H.
    destruct (n - 2 * List.length entries)%nat as [|m] eqn:E.
    + injection H as <-. split; [lia|reflexivity].
    + destruct m; discriminate H.
Qed.

Lemma div2_double_lt (n m : nat) : (n < 2 * m)%nat -> (Nat.div2 n < m)%nat.
Proof.
  intros H. pose proof (Nat.div2_odd n) as E.
  destruct (Nat.odd n); cbn [Nat.b2n] in E; lia.
Qed.

(** Up to status, commit [n] is the first [n/2 + 1] entries of the last
    commit. *)
Lemma all_commits_prefix (n : nat) (c : list LogEntry) :
  nth_error all_commits n = Some c ->
  map key c = firstn (Nat.div2 n + 1) (map key (entries ++ [last_entry])).
Proof.
  intros H. apply all_commits_nth in H.
  destruct H as [[Hlt [e [He ->]]]|[-> ->]].
  - rewrite Nat.add_1_r.
    assert (Hk : key (if Nat.even n then with_status e pending else e) = key e)
      by (destruct (Nat.even n); reflexivity).
    rewrite map_app. cbn [map]. rewrite Hk.
    change [key e] with (map key [e]). rewrite <- map_app.
    rewrite (firstn_snoc_nth entries _ e He).
    rewrite map_app, firstn_app, length_map.
    apply div2_double_lt in Hlt.
    replace (S (Nat.div2 n) - List.length entries)%nat with 0%nat by lia.
    rewrite firstn_O, app_nil_r. symmetry. apply firstn_map.
  - rewrite Nat.div2_double. rewrite firstn_all2; [reflexivity|].
    rewrite length_map, length_app. cbn [List.length]. lia.
Qed.

(** If the entries are final, a commit has one pending entry at most, the
    last one, at the even commits before the last. *)
Lemma all_commits_pending (n : nat) (c : list LogEntry) :
  Forall (fun e => status e <> pending) entries ->
  status last_entry <> pending ->
  nth_error all_commits n = Some c ->
  exists init x,
    c = init ++ [x]
    /\ Forall (fun e => status e <> pending) init
    /\ (status x = pending <-> Nat.even n = true /\ (n < 2 * List.length entries)%nat).
Proof.
  intros Hfin Hlast H. apply all_commits_nth in H.
  destruct H as [[Hlt [e [He ->]]]|[-> ->]].
  - exists (firstn (Nat.div2 n) entries),
           (if Nat.even n then with_status e pending else e).
    split; [reflexivity|]. split.
    + apply Forall_forall. intros x Hx.
      rewrite Forall_forall in Hfin. apply Hfin.
      rewrite <- (firstn_skipn (Nat.div2 n) entries). apply in_or_app. now left.
    + apply nth_error_In in He. rewrite Forall_forall in Hfin.
      specialize (Hfin e He).
      destruct (Nat.even n); cbn [with_status status]; split.
      * intros _. now split.
      * reflexivity.
      * intros Hp. contradiction.
      * intros [Hf _]. discriminate Hf.
  - exists entries, last_entry. split; [reflexivity|]. split; [exact Hfin|].
    split; [intros Hp; contradiction|]. intros [_ Hlt]. lia.
Qed.

End Commits.

Lemma stage_entries_final (script : list Step) :
  Forall (fun st => step_status st <> pending) script ->
  forall env k now,
    Forall (fun e => status e <> pending) (stage_entries env k script now).
Proof.
  induction 1 as [|step rest Hs _ IH]; intros env k now; cbn [stage_entries];
    constructor; [exact Hs|apply IH].
Qed.

Lemma stage_entries_length (script : list Step) :
  forall env k now, List.length (stage_entries env k script now) = List.length script.
Proof.
  induction script as [|step rest IH]; intros; cbn [stage_entries List.length];
    [reflexivity|now rewrite IH].
Qed.

Lemma steps_final (s : State) : Forall (fun st => step_status st <> pending) (steps s).
Proof. unfold steps. repeat constructor; discriminate. Qed.

(** ** The states an accepted run commits *)

Lemma clock_run_steps (script : list Step) :
  forall env k now cur,
    clock (run_steps env k script now cur) = end_clock env k script now.
Proof.
  induction script as [|step rest IH]; intros env k now cur; [reflexivity|].
  cbn [run_steps clock end_clock]. apply IH.
Qed.

Lemma end_clock_duration (script : list Step) :
  forall env k now, now + script_duration script <= end_clock env k script now.
Proof.
  induction script as [|step rest IH]; intros env k now;
    cbn [script_duration end_clock]; [lia|].
  specialize (IH env (S k) (after_stage (env k) step now)).
  unfold after_stage, sleep in *. lia.
Qed.

Lemma end_clock_punctual (script : list Step) :
  forall env k now,
    (forall j, late_register (env j) = 0%N /\ late_delay (env j) = 0%N) ->
    end_clock env k script now = now + script_duration script.
Proof.
  induction script as [|step rest IH]; intros env k now Hp;
    cbn [script_duration end_clock]; [lia|].
  rewrite (IH env (S k) _ Hp). destruct (Hp k) as [Hr Hd].
  unfold after_stage, sleep. rewrite Hr, Hd. lia.
Qed.

Lemma handleStartSync_commits_shape (env : Env) (now : Z) (s : State) :
  isSyncing s = false -> hasData s = true ->
  handleStartSync_commits env now s =
  map (fun l => setLogs l (setSyncCompleted false (setIsSyncing true s)))
      (stage_commits [] (stage_entries env 0 (steps s) now))
  ++ [handleStartSync env now s].
Proof.
  intros Hs Hd. rewrite (handleStartSync_final env now s Hs Hd).
  unfold handleStartSync_commits.
  rewrite no_payload_hasData, Hs, Hd. cbn [orb negb].
  rewrite run_steps_spec by (intros e []).
  cbn [clock currentLogs commits app]. reflexivity.
Qed.

(** The ids of the log store after a run are pairwise distinct. *)
Lemma final_ids_NoDup (env : Env) (now : Z) (s : State) :
  NoDup (map id (stage_entries env 0 (steps s) now ++ [trailing_entry env now s])).
Proof.
  pose proof (stage_entries_NoDup (steps s) env 0%nat now) as Hnd.
  pose proof (trailing_entry_id_lower env now s) as Hlow.
  assert (Hup : forall e, In e (stage_entries env 0 (steps s) now) ->
                id e < end_clock env 0 (steps s) now * PRECISION)
    by (intros e He; now apply stage_entries_ids_upper in He).
  generalize dependent (trailing_entry env now s). intros last_entry.
  generalize dependent (end_clock env 0 (steps s) now). intros finish.
  generalize dependent (stage_entries env 0 (steps s) now). intros entries.
  intros Hnd Hup Hlow.
  rewrite map_app. cbn [map].
  apply NoDup_app; [exact Hnd|repeat constructor; intros []|].
  intros x Hx [<-|[]].
  apply in_map_iff in Hx. destruct Hx as [e [He Hin]].
  apply Hup in Hin. lia.
Qed.

End RunFacts.

Module RunProperties.
Import App AppFacts Controller RunFacts.

(** X1. A run starts from an empty log store: what it commits does not
    depend on what the log store held before, and its first commit shows a
    single entry, the first stage, pending. *)
Theorem run_restarts_the_log (env : Env) (now : Z) (s : State) (old : list LogEntry) :
  handleStartSync_commits env now (setLogs old s) = handleStartSync_commits env now s
  /\ (isSyncing s = false -> hasData s = true ->
      exists first rest,
        handleStartSync_commits env now (setLogs old s) = first :: rest
        /\ map view (logs first) = [("INITIALIZING PHANTOM_V RUNTIME", pending)]).
Proof.
  assert (E : handleStartSync_commits env now (setLogs old s)
              = handleStartSync_commits env now s) by reflexivity.
  split; [exact E|]. intros Hs Hd. rewrite E.
  rewrite (handleStartSync_commits_shape env now s Hs Hd).
  cbn [steps stage_entries stage_commits map app]. eexists. eexists.
  split; reflexivity.
Qed.

Lemma run_restarts_the_log_witness :
  exists first rest,
    handleStartSync_commits Scenario.jittery Scenario.start
      (setLogs (logs Scenario.syncing) Scenario.hello_world) = first :: rest
    /\ map view (logs first) = [("INITIALIZING PHANTOM_V RUNTIME", pending)].
Proof.
  apply (run_restarts_the_log Scenario.jittery Scenario.start Scenario.hello_world
           (logs Scenario.syncing));
    reflexivity.
Defined.

(** X2. A run changes nothing but the log store and the two flags of the
    run: in every state it commits, the payload (file content, file name,
    pasted text, image), the persistence switch, the authentication, the
    analyzer switch and the update-check state are those of the start. *)
Theorem run_keeps_the_inputs (env : Env) (now : Z) (s c : State) :
  In c (handleStartSync_commits env now s) ->
  fileContent c = fileContent s /\ fileName c = fileName s
  /\ pastedContent c = pastedContent s /\ imageData c = imageData s
  /\ isSessionPersistent c = isSessionPersistent s
  /\ isAuthenticated c = isAuthenticated s
  /\ showAnalyzer c = showAnalyzer s
  /\ showUpdateModal c = showUpdateModal s /\ snoozeUntil c = snoozeUntil s.
Proof.
  intros Hin.
  destruct (isSyncing s) eqn:Hs;
    [rewrite handleStartSync_rejected in Hin by (now left); destruct Hin|].
  destruct (hasData s) eqn:Hd;
    [|rewrite handleStartSync_rejected in Hin by (now right); destruct Hin].
  rewrite (handleStartSync_commits_shape env now s Hs Hd) in Hin.
  rewrite (handleStartSync_final env now s Hs Hd) in Hin.
  apply in_app_or in Hin. destruct Hin as [Hin|[<-|[]]].
  - apply in_map_iff in Hin. destruct Hin as [l [<- _]]. repeat split.
  - repeat split.
Qed.

Lemma run_keeps_the_inputs_witness :
  pastedContent (handleStartSync Scenario.jittery Scenario.start Scenario.hello_world)
  = "hello world".
Proof.
  apply (run_keeps_the_inputs Scenario.jittery Scenario.start Scenario.hello_world).
  rewrite (handleStartSync_commits_shape Scenario.jittery Scenario.start
             Scenario.hello_world eq_refl eq_refl).
  apply in_or_app. right. now left.
Defined.

(** X3. While a run is in flight it cannot be disturbed: every state
    committed before the last has the run active and not complete, so that a
    second call of the run trigger commits nothing, the Start button and the
    textarea are disabled, and a dropped file is ignored.  The last state has
    the run no longer active and complete. *)
Theorem run_in_flight_is_exclusive (env : Env) (now : Z) (s : State) :
  isSyncing s = false ->
  hasData s = true ->
  (forall c, In c (removelast (handleStartSync_commits env now s)) ->
     isSyncing c = true /\ syncCompleted c = false
     /\ (forall env' now', handleStartSync_commits env' now' c = [])
     /\ startDisabled c = true /\ textareaDisabled c = true
     /\ (forall file over, handleDrop file (mkUi c over) = mkUi c false)
     /\ (forall over, isDragOver (handleDragOver (mkUi c over)) = over))
  /\ last (handleStartSync_commits env now s) s = handleStartSync env now s
  /\ isSyncing (handleStartSync env now s) = false
  /\ syncCompleted (handleStartSync env now s) = true.
Proof.
  intros Hs Hd. split; [|split; [reflexivity|]].
  - intros c Hin.
    rewrite (handleStartSync_commits_shape env now s Hs Hd), removelast_last in Hin.
    apply in_map_iff in Hin. destruct Hin as [l [<- _]].
    assert (Hbusy : isSyncing (setLogs l (setSyncCompleted false (setIsSyncing true s)))
                    = true) by reflexivity.
    split; [exact Hbusy|]. split; [reflexivity|].
    split; [intros env' now'; apply handleStartSync_rejected; now left|].
    split; [reflexivity|]. split; [reflexivity|].
    split; [intros file over; unfold handleDrop; cbn [app]; now rewrite Hbusy|].
    intros over. unfold handleDragOver. cbn [app]. now rewrite Hbusy.
  - rewrite (handleStartSync_final env now s Hs Hd). split; reflexivity.
Qed.

Lemma run_in_flight_is_exclusive_witness :
  isSyncing (handleStartSync Scenario.jittery Scenario.start Scenario.hello_world) = false
  /\ syncCompleted (handleStartSync Scenario.jittery Scenario.start Scenario.hello_world)
     = true.
Proof.
  apply (run_in_flight_is_exclusive Scenario.jittery Scenario.start Scenario.hello_world);
    reflexivity.
Defined.

(** X4. An accepted run commits 19 states, and the log store only grows by
    appending: at commit [n] it holds, up to status, exactly the first
    [n/2 + 1] entries of the log store the run leaves behind.  No id and no
    message is ever changed, removed or moved. *)
Theorem log_grows_by_appending (env : Env) (now : Z) (s : State) :
  isSyncing s = false ->
  hasData s = true ->
  List.length (handleStartSync_commits env now s) = 19%nat
  /\ forall n c,
       nth_error (handleStartSync_commits env now s) n = Some c ->
       map key (logs c)
       = firstn (Nat.div2 n + 1) (map key (logs (handleStartSync env now s))).
Proof.
  intros Hs Hd. split.
  - rewrite <- (length_map logs), (handleStartSync_accepted env now s Hs Hd).
    rewrite all_commits_length, stage_entries_length. reflexivity.
  - intros n c Hn. apply (map_nth_error logs) in Hn.
    rewrite (handleStartSync_accepted env now s Hs Hd) in Hn.
    rewrite (handleStartSync_final env now s Hs Hd).
    cbn [logs setIsSyncing setSyncCompleted setLogs].
    apply (all_commits_prefix _ _ _ _ Hn).
Qed.

Lemma log_grows_by_appending_witness :
  List.length (handleStartSync_commits Scenario.jittery Scenario.start Scenario.hello_world)
  = 19%nat.
Proof.
  apply (log_grows_by_appending Scenario.jittery Scenario.start Scenario.hello_world);
    reflexivity.
Defined.

(** X5. In every state an accepted run commits, at most one entry is pending,
    and it is the last one: the entries before the last are never pending,
    and the last is pending exactly at the even commits before the final
    one.  The final log store has no pending entry. *)
Theorem one_pending_entry_at_most (env : Env) (now : Z) (s : State) :
  isSyncing s = false ->
  hasData s = true ->
  (forall n c,
     nth_error (handleStartSync_commits env now s) n = Some c ->
     exists init x,
       logs c = init ++ [x]
       /\ Forall (fun e => status e <> pending) init
       /\ (status x = pending <-> Nat.even n = true /\ (n < 18)%nat))
  /\ Forall (fun e => status e <> pending) (logs (handleStartSync env now s)).
Proof.
  intros Hs Hd.
  pose proof (stage_entries_final (steps s) (steps_final s) env 0%nat now) as Hfin.
  pose proof (trailing_entry_status env now s) as Hinfo.
  pose proof (stage_entries_length (steps s) env 0%nat now) as Hlen.
  change (List.length (steps s)) with 9%nat in Hlen.
  split.
  - intros n c Hn. apply (map_nth_error logs) in Hn.
    rewrite (handleStartSync_accepted env now s Hs Hd) in Hn.
    generalize dependent (trailing_entry env now s). intros last_entry Hinfo Hn.
    generalize dependent (stage_entries env 0 (steps s) now). intros entries Hfin Hlen Hn.
    destruct (all_commits_pending entries last_entry n (logs c) Hfin) as [init [x [E [Hi Hx]]]];
      [rewrite Hinfo; discriminate|exact Hn|].
    exists init, x. rewrite Hlen in Hx. change (2 * 9)%nat with 18%nat in Hx.
    split; [exact E|]. split; [exact Hi|exact Hx].
  - rewrite (handleStartSync_final env now s Hs Hd).
    cbn [logs setIsSyncing setSyncCompleted setLogs].
    apply Forall_app. split; [exact Hfin|].
    constructor; [rewrite Hinfo; discriminate|constructor].
Qed.

Lemma one_pending_entry_at_most_witness :
  Forall (fun e => status e <> pending)
         (logs (handleStartSync Scenario.jittery Scenario.start Scenario.hello_world)).
Proof.
  apply (one_pending_entry_at_most Scenario.jittery Scenario.start Scenario.hello_world);
    reflexivity.
Defined.

(** X6. In every state an accepted run commits, the entries of the log store
    have pairwise distinct ids, the entry about session persistence
    included: the list keys of the rendered log never clash. *)
Theorem log_ids_distinct (env : Env) (now : Z) (s c : State) :
  isSyncing s = false ->
  hasData s = true ->
  In c (handleStartSync_commits env now s) ->
  NoDup (map id (logs c)).
Proof.
  intros Hs Hd Hin. apply In_nth_error in Hin. destruct Hin as [n Hn].
  apply (map_nth_error logs) in Hn.
  rewrite (handleStartSync_accepted env now s Hs Hd) in Hn.
  pose proof (final_ids_NoDup env now s) as Hnd.
  generalize dependent (trailing_entry env now s). intros last_entry Hn Hnd.
  generalize dependent (stage_entries env 0 (steps s) now). intros entries Hn Hnd.
  apply all_commits_prefix in Hn.
  assert (Hid : forall l, map id l = map fst (map key l))
    by (intros l; rewrite map_map; reflexivity).
  rewrite Hid, Hn, <- firstn_map, <- Hid.
  now apply NoDup_firstn.
Qed.

Lemma log_ids_distinct_witness :
  NoDup (map id (logs (handleStartSync Scenario.jittery Scenario.start
                                       Scenario.hello_world))).
Proof.
  apply (log_ids_distinct Scenario.jittery Scenario.start Scenario.hello_world);
    [reflexivity|reflexivity|].
  rewrite (handleStartSync_commits_shape Scenario.jittery Scenario.start
             Scenario.hello_world eq_refl eq_refl).
  apply in_or_app. right. now left.
Defined.

(** X7. The loop takes at least the sum of its delays, 200 ms of registration
    per stage included, and exactly that when no timer is late; for the fixed
    script this is 12300 ms, so the entry about session persistence is
    stamped at least 12.3 s after the start of the run. *)
Theorem run_duration (env : Env) (k : nat) (script : list Step) (now : Z)
        (cur : list LogEntry) (s : State) :
  now + script_duration script <= clock (run_steps env k script now cur)
  /\ ((forall j, late_register (env j) = 0%N /\ late_delay (env j) = 0%N) ->
      clock (run_steps env k script now cur) = now + script_duration script)
  /\ script_duration (steps s) = 12300
  /\ (now + 12300) * PRECISION <= id (trailing_entry env now s).
Proof.
  rewrite clock_run_steps.
  split; [apply end_clock_duration|].
  split; [apply end_clock_punctual|].
  split; [reflexivity|].
  pose proof (trailing_entry_id_lower env now s) as Hlow.
  pose proof (end_clock_duration (steps s) env 0%nat now) as Hdur.
  change (script_duration (steps s)) with 12300 in Hdur.
  generalize dependent (trailing_entry env now s). intros last_entry Hlow.
  generalize dependent (end_clock env 0 (steps s) now). intros finish Hlow Hdur.
  pose proof PRECISION_pos. nia.
Qed.

Lemma run_duration_witness :
  clock (run_steps Scenario.punctual 0 (steps Scenario.hello_world) Scenario.start [])
  = Scenario.start + script_duration (steps Scenario.hello_world).
Proof.
  apply (run_duration Scenario.punctual 0 (steps Scenario.hello_world) Scenario.start []
           Scenario.hello_world).
  intros j. split; reflexivity.
Defined.

Lemma run_views (env : Env) (now : Z) (s : State) :
  isSyncing s = false -> hasData s = true ->
  map view (logs (handleStartSync env now s))
  = map step_view (steps s) ++ [(persistence_message (isSessionPersistent s), info)].
Proof.
  intros Hs Hd. rewrite (handleStartSync_final env now s Hs Hd).
  cbn [logs setIsSyncing setSyncCompleted setLogs].
  rewrite map_app, stage_entries_view. reflexivity.
Qed.

(** X8. Running again over the same payload gives the same log.  The run
    trigger is accepted again on the state a run leaves behind: the second
    call commits its 19 states, starting from a single pending entry, and
    makes its entries anew at the time of the second run; it ends with the
    same ten messages and statuses as the first, whatever the clock and the
    timers did. *)
Theorem rerun_gives_the_same_log (env1 env2 : Env) (now1 now2 : Z) (s : State) :
  isSyncing s = false ->
  hasData s = true ->
  List.length (handleStartSync_commits env2 now2 (handleStartSync env1 now1 s)) = 19%nat
  /\ (exists first rest,
        handleStartSync_commits env2 now2 (handleStartSync env1 now1 s) = first :: rest
        /\ map view (logs first) = [("INITIALIZING PHANTOM_V RUNTIME", pending)])
  /\ logs (handleStartSync env2 now2 (handleStartSync env1 now1 s))
     = stage_entries env2 0 (steps s) now2
       ++ [trailing_entry env2 now2 (handleStartSync env1 now1 s)]
  /\ map view (logs (handleStartSync env2 now2 (handleStartSync env1 now1 s)))
     = map view (logs (handleStartSync env1 now1 s))
  /\ List.length (logs (handleStartSync env2 now2 (handleStartSync env1 now1 s))) = 10%nat.
Proof.
  intros Hs Hd.
  assert (Hs' : isSyncing (handleStartSync env1 now1 s) = false)
    by (now rewrite (handleStartSync_final env1 now1 s Hs Hd)).
  assert (Hd' : hasData (handleStartSync env1 now1 s) = true)
    by (rewrite (handleStartSync_final env1 now1 s Hs Hd); exact Hd).
  assert (Hsteps : steps (handleStartSync env1 now1 s) = steps s)
    by (now rewrite (handleStartSync_final env1 now1 s Hs Hd)).
  split; [|split; [|split; [|split]]].
  - rewrite <- (length_map logs), (handleStartSync_accepted env2 now2 _ Hs' Hd').
    rewrite all_commits_length, stage_entries_length, Hsteps. reflexivity.
  - rewrite (handleStartSync_commits_shape env2 now2 _ Hs' Hd'), Hsteps.
    cbn [steps stage_entries stage_commits map app]. eexists. eexists.
    split; reflexivity.
  - rewrite (handleStartSync_final env2 now2 _ Hs' Hd'), Hsteps. reflexivity.
  - rewrite (run_views env2 now2 _ Hs' Hd'), (run_views env1 now1 s Hs Hd).
    now rewrite (handleStartSync_final env1 now1 s Hs Hd).
  - rewrite <- (length_map view), (run_views env2 now2 _ Hs' Hd'). reflexivity.
Qed.

Lemma rerun_gives_the_same_log_witness :
  List.length
    (handleStartSync_commits Scenario.punctual (Scenario.start + 60000)
       (handleStartSync Scenario.jittery Scenario.start Scenario.hello_world))
  = 19%nat.
Proof.
  apply (rerun_gives_the_same_log Scenario.jittery Scenario.punctual Scenario.start
           (Scenario.start + 60000) Scenario.hello_world);
    reflexivity.
Defined.

(** X9. After an accepted run the Analyze button is rendered, the Start
    button is disabled exactly when the session is persistent, and the
    analyzer, once opened, is mounted with the props of the payload the run
    was started on. *)
Theorem controls_after_run (env : Env) (now : Z) (s : State) :
  isSyncing s = false ->
  hasData s = true ->
  analyzeButtonShown (handleStartSync env now s) = true
  /\ startDisabled (handleStartSync env now s) = isSessionPersistent s
  /\ analyzerMounted (setShowAnalyzer true (handleStartSync env now s)) = true
  /\ DataAnalyzer.props_of (setShowAnalyzer true (handleStartSync env now s))
     = DataAnalyzer.props_of s.
Proof.
  intros Hs Hd. rewrite (handleStartSync_final env now s Hs Hd).
  unfold analyzeButtonShown, startDisabled, analyzerMounted.
  assert (E : forall l b, hasData (setShowAnalyzer b (setIsSyncing false
                (setSyncCompleted true (setLogs l s)))) = true) by (intros; exact Hd).
  assert (E' : forall l, hasData (setIsSyncing false
                (setSyncCompleted true (setLogs l s))) = true) by (intros; exact Hd).
  rewrite E, E'.
  cbn [isSyncing syncCompleted isSessionPersistent showAnalyzer
       setShowAnalyzer setIsSyncing setSyncCompleted setLogs andb orb negb].
  repeat split.
Qed.

Lemma controls_after_run_witness :
  startDisabled (handleStartSync Scenario.jittery Scenario.start Scenario.hello_world)
  = false.
Proof.
  apply (controls_after_run Scenario.jittery Scenario.start Scenario.hello_world);
    reflexivity.
Defined.

End RunProperties.

(** * Input handling and the controls *)

Module InputProperties.
Import App AppFacts Controller.

Lemma truthy_string_empty (v : string) : truthy_string v = false <-> v = "".
Proof.
  unfold truthy_string. destruct (String.eqb_spec v ""); split; intros H;
    try reflexivity; try assumption; try discriminate; contradiction.
Qed.

Lemma truthy_string_empty_neg (v : string) : v <> "" -> truthy_string v = true.
Proof.
  intros H. destruct (truthy_string v) eqn:E; [reflexivity|].
  apply truthy_string_empty in E. contradiction.
Qed.

Lemma no_request_iff_no_data (s : State) :
  DataAnalyzer.request_for (DataAnalyzer.props_of s) = None <-> hasData s = false.
Proof.
  unfold DataAnalyzer.request_for, DataAnalyzer.props_of, hasData, or_else, truthy_ostring.
  cbn [DataAnalyzer.imageData DataAnalyzer.textContent].
  destruct (imageData s) as [img|].
  - rewrite orb_true_r. split; discriminate.
  - rewrite orb_false_r.
    destruct (fileContent s) as [c|].
    + destruct (truthy_string c) eqn:Hc; cbn [orb].
      * rewrite Hc. split; discriminate.
      * destruct (truthy_string (pastedContent s)); split; congruence.
    + cbn [orb]. destruct (truthy_string (pastedContent s)); split; congruence.
Qed.

(** X10. The analyzer is never mounted without something to send: the props
    the App passes lead to the no-content branch of [handleAnalyze] exactly
    when the App has no data, in which case it does not mount the analyzer.
    With an image the request is the image request, whatever text there is;
    without one it is the text request over the file content if that is
    non-empty, and over the pasted text otherwise. *)
Theorem analyzer_is_mounted_with_a_payload (s : State) :
  (DataAnalyzer.request_for (DataAnalyzer.props_of s) = None <-> hasData s = false)
  /\ (analyzerMounted s = true ->
      DataAnalyzer.request_for (DataAnalyzer.props_of s) <> None)
  /\ (forall img, imageData s = Some img ->
      DataAnalyzer.request_for (DataAnalyzer.props_of s)
      = Some (DataAnalyzer.image_request img))
  /\ (imageData s = None -> hasData s = true ->
      DataAnalyzer.request_for (DataAnalyzer.props_of s)
      = Some (DataAnalyzer.text_request (or_else (fileContent s) (pastedContent s)))).
Proof.
  pose proof (no_request_iff_no_data s) as Hiff.
  split; [exact Hiff|]. split; [|split].
  - unfold analyzerMounted. intros H. apply andb_prop in H. destruct H as [_ H].
    intros Hn. apply Hiff in Hn. congruence.
  - intros img Hi. unfold DataAnalyzer.request_for, DataAnalyzer.props_of.
    cbn [DataAnalyzer.imageData]. now rewrite Hi.
  - intros Hi Hd. revert Hd.
    unfold DataAnalyzer.request_for, DataAnalyzer.props_of, hasData, or_else, truthy_ostring.
    cbn [DataAnalyzer.imageData DataAnalyzer.textContent]. rewrite Hi, orb_false_r.
    destruct (fileContent s) as [c|].
    + destruct (truthy_string c) eqn:Hc; cbn [orb]; [now rewrite Hc|].
      intros Hp. now rewrite Hp.
    + cbn [orb]. intros Hp. now rewrite Hp.
Qed.

Lemma analyzer_is_mounted_with_a_payload_witness :
  DataAnalyzer.request_for (DataAnalyzer.props_of Scenario.hello_world)
  = Some (DataAnalyzer.text_request "hello world").
Proof.
  apply (analyzer_is_mounted_with_a_payload Scenario.hello_world); reflexivity.
Defined.

(** X11. Clearing the input (the Clear File and Clear Image buttons) removes
    the payload and hides the analyzer but leaves the log store as it is;
    the App then has no data, the Start button is disabled and the run
    trigger commits nothing.  Selecting a file or typing in the textarea
    empties the log store as well. *)
Theorem clearing_keeps_the_log (env : Env) (now : Z) (s : State) (file : File) (v : string) :
  logs (resetInput s) = logs s
  /\ hasData (resetInput s) = false
  /\ analyzerMounted (resetInput s) = false
  /\ analyzeButtonShown (resetInput s) = false
  /\ startDisabled (resetInput s) = true
  /\ handleStartSync_commits env now (resetInput s) = []
  /\ resetInput (resetInput s) = resetInput s
  /\ logs (handleFileRead file s) = []
  /\ logs (handlePaste v s) = [].
Proof.
  assert (Hd : hasData (resetInput s) = false) by reflexivity.
  split; [reflexivity|]. split; [exact Hd|].
  split; [unfold analyzerMounted; now rewrite Hd|].
  split; [unfold analyzeButtonShown; now rewrite Hd|].
  split; [unfold startDisabled; rewrite Hd; cbn [negb]; now rewrite orb_true_r|].
  split; [apply handleStartSync_rejected; now right|].
  split; [reflexivity|].
  split; [unfold handleFileRead; destruct (is_image file); reflexivity|reflexivity].
Qed.


(** X13. Typing [v] in the textarea replaces the payload by [v]: file and
    image are gone, the log store is empty, no run counts as completed, and
    the App has data exactly when [v] is not empty; deleting the text leaves
    no payload.  The state is well formed whatever it was before. *)
Theorem paste_replaces_the_payload (v : string) (s : State) :
  pastedContent (handlePaste v s) = v
  /\ fileContent (handlePaste v s) = None /\ fileName (handlePaste v s) = None
  /\ imageData (handlePaste v s) = None
  /\ logs (handlePaste v s) = []
  /\ syncCompleted (handlePaste v s) = false
  /\ hasData (handlePaste v s) = truthy_string v
  /\ (hasData (handlePaste v s) = false <-> v = "")
  /\ well_formed (handlePaste v s) = true
  /\ DataAnalyzer.props_of (handlePaste v s) = DataAnalyzer.mkProps (Some v) None.
Proof.
  assert (Hd : hasData (handlePaste v s) = truthy_string v).
  { unfold hasData. cbn [handlePaste fileContent pastedContent imageData
                         setPastedContent setLogs truthy_ostring orb].
    unfold resetInput. cbn. now rewrite orb_false_r. }
  repeat split; try exact Hd.
  - rewrite Hd. apply truthy_string_empty.
  - rewrite Hd. apply truthy_string_empty.
  - unfold well_formed, one_payload.
    cbn [handlePaste resetInput imageData fileContent fileName syncCompleted showAnalyzer
         setPastedContent setLogs setShowAnalyzer setSyncCompleted setImageData
         setFileName setFileContent implb andb].
    now rewrite orb_true_r.
Qed.

Lemma paste_replaces_the_payload_witness :
  hasData (handlePaste "" Scenario.hello_world) = false.
Proof.
  apply (paste_replaces_the_payload "" Scenario.hello_world). reflexivity.
Defined.

(** X14. Reading a text file: the file name is shown at once and the log
    store and the old payload are dropped; when the reader delivers the
    text, it becomes the file content.  The App has data exactly when the
    text is not empty.  After an empty file with a non-empty name the App
    has no data, yet the textarea stays disabled until the input is
    cleared. *)
Theorem text_file_becomes_the_payload
        (file : File) (text : string) (now : Z) (r : N) (s : State) :
  is_image file = false ->
  exists s',
    read_file file (Loaded text) now r s = Some s'
    /\ fileName s' = Some (file_name file) /\ fileContent s' = Some text
    /\ pastedContent s' = "" /\ imageData s' = None
    /\ logs s' = []
    /\ hasData s' = truthy_string text
    /\ well_formed s' = true
    /\ (text = "" -> file_name file <> "" ->
        startDisabled s' = true /\ textareaDisabled s' = true).
Proof.
  intros Hi. unfold read_file, handleFileRead. rewrite Hi.
  eexists. split; [reflexivity|].
  assert (Hd : hasData (text_onload text (setFileName (Some (file_name file))
                 (setLogs [] (resetInput s)))) = truthy_string text).
  { unfold hasData. cbn. now rewrite !orb_false_r. }
  repeat (split; [first [reflexivity | exact Hd]|]).
  intros Ht Hn. split.
  - unfold startDisabled. rewrite Hd. subst text.
    cbn [truthy_string String.eqb negb]. now rewrite orb_true_r.
  - unfold textareaDisabled.
    cbn [text_onload fileName isSyncing imageData setFileContent setFileName setLogs
         truthy_ostring].
    rewrite (truthy_string_empty_neg _ Hn). now rewrite orb_true_r.
Qed.

Lemma text_file_becomes_the_payload_witness :
  is_image Scenario.notes_file = false
  /\ exists s',
      read_file Scenario.notes_file (Loaded "") Scenario.start 3 Scenario.hello_world
      = Some s'
      /\ hasData s' = false /\ textareaDisabled s' = true.
Proof.
  split; [reflexivity|].
  destruct (text_file_becomes_the_payload Scenario.notes_file "" Scenario.start 3
              Scenario.hello_world eq_refl)
    as [s' [E [_ [_ [_ [_ [_ [Hd [_ Hstuck]]]]]]]]].
  exists s'. split; [exact E|]. split; [exact Hd|].
  apply Hstuck; [reflexivity|discriminate].
Defined.

(** X15. A failed read leaves no payload behind and reports itself: the log
    store then holds one entry, with status error and a message naming the
    file and its kind, and the App has no data; for a text file the file
    name shown since the selection is removed again. *)
Theorem failed_read_is_logged (file : File) (now : Z) (r : N) (s : State) :
  exists s',
    read_file file ReadFailed now r s = Some s'
    /\ logs s'
       = [mkLog (fresh_id now r)
                ((if is_image file then "Error reading image file: "
                  else "Error reading text file: ") ++ file_name file)%string
                error]
    /\ hasData s' = false
    /\ fileName s' = None /\ fileContent s' = None /\ imageData s' = None
    /\ well_formed s' = true.
Proof.
  unfold read_file, handleFileRead.
  destruct (is_image file); eexists; repeat split.
Qed.

(** ** The base64 part of a data URL *)

Lemma split_comma_whole (s : string) : has_comma s = false -> split_comma s = [s].
Proof.
  induction s as [|c s IH]; cbn [has_comma split_comma]; [reflexivity|].
  destruct (Ascii.eqb c ","); [discriminate|].
  cbn [orb]. intros H. now rewrite (IH H).
Qed.

Lemma split_comma_app (header rest : string) :
  has_comma header = false ->
  split_comma (header ++ "," ++ rest)%string = header :: split_comma rest.
Proof.
  induction header as [|c h IH]; cbn [has_comma]; intros H.
  - reflexivity.
  - cbn [String.append split_comma] in *.
    destruct (Ascii.eqb c ","); [discriminate|].
    cbn [orb] in H. now rewrite (IH H).
Qed.

Lemma split_comma_two (s : string) :
  has_comma s = true -> exists a b rest, split_comma s = a :: b :: rest.
Proof.
  induction s as [|c s IH]; cbn [has_comma split_comma]; [discriminate|].
  destruct (Ascii.eqb c ",").
  - intros _. destruct (has_comma s) eqn:E.
    + destruct (IH eq_refl) as [a [b [rest ->]]]. now exists "", a, (b :: rest).
    + rewrite (split_comma_whole s E). now exists "", s, [].
  - cbn [orb]. intros H. destruct (IH H) as [a [b [rest ->]]].
    now exists (String c a), b, rest.
Qed.

(** X16. The image reader keeps, as base64 data, what follows the first comma
    of the data URL up to the next comma.  For a URL made of a header and a
    payload without commas, joined by a comma, this is the payload, and the
    image is stored with the full URL, that payload, and the type and name of
    the file.  The read yields no state exactly when the URL has no comma. *)
Theorem base64_is_the_part_after_the_comma
        (file : File) (header payload : string) (s : State) :
  has_comma header = false ->
  has_comma payload = false ->
  base64_of (header ++ "," ++ payload)%string = Some payload
  /\ image_onload file (header ++ "," ++ payload)%string s
     = Some (setImageData
               (Some (mkImage (header ++ "," ++ payload)%string payload
                              (file_type file) (file_name file))) s)
  /\ (forall more,
        base64_of (header ++ "," ++ payload ++ "," ++ more)%string = Some payload)
  /\ (forall dataUrl, image_onload file dataUrl s = None <-> has_comma dataUrl = false).
Proof.
  intros Hh Hp.
  assert (E : base64_of (header ++ "," ++ payload)%string = Some payload).
  { unfold base64_of. rewrite (split_comma_app header payload Hh).
    now rewrite (split_comma_whole payload Hp). }
  split; [exact E|]. split; [unfold image_onload; now rewrite E|]. split.
  - intros more. unfold base64_of.
    rewrite (split_comma_app header _ Hh), (split_comma_app payload more Hp).
    reflexivity.
  - intros dataUrl. unfold image_onload, base64_of.
    destruct (has_comma dataUrl) eqn:Hc.
    + destruct (split_comma_two dataUrl Hc) as [a [b [rest ->]]].
      cbn [nth_error]. split; discriminate.
    + rewrite (split_comma_whole dataUrl Hc). cbn [nth_error]. split; reflexivity.
Qed.

Lemma base64_is_the_part_after_the_comma_witness :
  base64_of "data:image/png;base64,iVBORw0KGgo=" = Some "iVBORw0KGgo=".
Proof.
  apply (base64_is_the_part_after_the_comma Scenario.cat_file
           "data:image/png;base64" "iVBORw0KGgo=" Controller.initial);
    reflexivity.
Defined.

(** ** The state between two actions *)

Lemma act_well_formed (a : Action) (s s' : State) :
  well_formed s = true -> act a s = Some s' -> well_formed s' = true.
Proof.
  intros Hw Ha. destruct a as [now r| |file res now r|v| |b|env now| |];
    cbn [act] in Ha.
  - injection Ha as <-. reflexivity.
  - injection Ha as <-. exact Hw.
  - unfold read_file, handleFileRead in Ha.
    destruct res as [result|]; destruct (is_image file).
    + unfold image_onload in Ha. destruct (base64_of result); [|discriminate].
      injection Ha as <-. reflexivity.
    + injection Ha as <-. reflexivity.
    + injection Ha as <-. reflexivity.
    + injection Ha as <-. reflexivity.
  - injection Ha as <-. unfold well_formed, one_payload.
    cbn [handlePaste resetInput imageData fileContent fileName syncCompleted showAnalyzer
         setPastedContent setLogs setShowAnalyzer setSyncCompleted setImageData
         setFileName setFileContent implb andb].
    now rewrite orb_true_r.
  - injection Ha as <-. reflexivity.
  - injection Ha as <-. exact Hw.
  - injection Ha as <-.
    destruct (isSyncing s) eqn:Hs.
    { unfold handleStartSync.
      rewrite handleStartSync_rejected by (now left). exact Hw. }
    destruct (hasData s) eqn:Hd.
    2:{ unfold handleStartSync.
        rewrite handleStartSync_rejected by (now right). exact Hw. }
    rewrite (handleStartSync_final env now s Hs Hd).
    unfold well_formed in *.
    apply andb_prop in Hw. destruct Hw as [Hw _].
    apply andb_prop in Hw. destruct Hw as [Hone _].
    change (one_payload s && implb true (hasData s) && implb (showAnalyzer s) true = true).
    rewrite Hone, Hd. now destruct (showAnalyzer s).
  - injection Ha as <-. destruct (analyzeButtonShown s) eqn:Hb; [|exact Hw].
    unfold analyzeButtonShown in Hb. apply andb_prop in Hb. destruct Hb as [Hc Hd].
    unfold well_formed in *.
    apply andb_prop in Hw. destruct Hw as [Hw _].
    change (one_payload s && implb (syncCompleted s) (hasData s)
            && implb true (syncCompleted s) = true).
    now rewrite Hw, Hc.
  - injection Ha as <-. unfold well_formed in *.
    apply andb_prop in Hw. destruct Hw as [Hw _].
    change (one_payload s && implb (syncCompleted s) (hasData s)
            && implb false (syncCompleted s) = true).
    now rewrite Hw.
Qed.

(** X17. Between two user actions the state is always well formed: after any
    sequence of logins, logouts, file reads, pastes, clears, persistence
    toggles, runs and openings or closings of the analyzer, starting from the
    page load, at most one kind of payload (file, pasted text or image) is
    present, a run counts as completed only over a payload, and the analyzer
    is open only after a completed run; so an open analyzer is mounted and
    always has a request to send. *)
Theorem actions_keep_the_state_well_formed (l : list Action) (s s' : State) :
  well_formed s = true ->
  act_all l s = Some s' ->
  well_formed s' = true
  /\ analyzerMounted s' = showAnalyzer s'
  /\ (showAnalyzer s' = true ->
      DataAnalyzer.request_for (DataAnalyzer.props_of s') <> None)
  /\ well_formed initial = true.
Proof.
  intros Hw Hl.
  assert (Hw' : well_formed s' = true).
  { revert s Hw Hl. induction l as [|a l IH]; intros s Hw Hl; cbn [act_all] in Hl.
    - now injection Hl as <-.
    - destruct (act a s) as [s1|] eqn:Ha; [|discriminate].
      apply (IH s1); [apply (act_well_formed a s s1 Hw Ha)|exact Hl]. }
  split; [exact Hw'|].
  unfold well_formed in Hw'.
  apply andb_prop in Hw'. destruct Hw' as [Hw' Han].
  apply andb_prop in Hw'. destruct Hw' as [_ Hrun].
  assert (Hd : showAnalyzer s' = true -> hasData s' = true).
  { intros Hopen. rewrite Hopen in Han. cbn [implb] in Han.
    rewrite Han in Hrun. exact Hrun. }
  split; [|split; [|reflexivity]].
  - unfold analyzerMounted. destruct (showAnalyzer s'); [|reflexivity].
    now rewrite (Hd eq_refl).
  - intros Hopen Hn. apply no_request_iff_no_data in Hn.
    rewrite (Hd Hopen) in Hn. discriminate.
Qed.

Lemma actions_keep_the_state_well_formed_witness :
  exists s',
    act_all Scenario.working_day initial = Some s' /\ well_formed s' = true.
Proof.
  destruct (act_all Scenario.working_day initial) as [s'|] eqn:E;
    [|vm_compute in E; discriminate E].
  exists s'. split; [reflexivity|].
  apply (actions_keep_the_state_well_formed Scenario.working_day initial s' eq_refl E).
Defined.

End InputProperties.

(** * The session and the update check *)

Module SessionProperties.
Import App AppFacts Controller.






End SessionProperties.

Module UpdateProperties.
Import App AppFacts Controller.

Lemma check_keeps_stored (now : Z) (res : FetchResult) (r : string) (s : State) :
  truthy_string r = true ->
  storage (checkForUpdates now res (Some r) s) = Some r.
Proof.
  intros Hr. unfold checkForUpdates.
  destruct (snoozed now s); [reflexivity|].
  destruct res as [|st sha]; [reflexivity|].
  destruct (ok st); [|reflexivity]. cbn [negb]. rewrite Hr. cbn [negb].
  destruct (r =? sha)%string; reflexivity.
Qed.

Lemma notifications_alert (s : State) (l : list Effect) :
  notifications (l ++ alert s) = notifications l.
Proof.
  unfold notifications, alert. rewrite filter_app, length_app.
  destruct (isAuthenticated s); cbn; lia.
Qed.

(** X19. A check that fails, by a network error or by a status outside
    200..299, changes neither the state nor the stored revision and raises
    no notification; it is only reported on the console.  No check at all
    closes the update modal or touches anything of the state but that
    modal, and a check raises one notification at most. *)
Theorem failed_check_is_tolerated
        (now : Z) (res : FetchResult) (stored : Storage) (s : State) :
  ((res = NetworkError \/ exists st sha, res = Response st sha /\ ok st = false) ->
   snoozed now s = false ->
   checkForUpdates now res stored s = mkChecked s stored [Fetch; ConsoleError])
  /\ (state (checkForUpdates now res stored s) = s
      \/ state (checkForUpdates now res stored s) = setShowUpdateModal true s)
  /\ (showUpdateModal s = true ->
      showUpdateModal (state (checkForUpdates now res stored s)) = true)
  /\ (notifications (effects (checkForUpdates now res stored s)) <= 1)%nat.
Proof.
  split; [|split; [|split]].
  - intros Hf Hz. unfold checkForUpdates. rewrite Hz.
    destruct Hf as [->|[st [sha [-> Hok]]]]; [reflexivity|now rewrite Hok].
  - unfold checkForUpdates. destruct (snoozed now s); [now left|].
    destruct res as [|st sha]; [now left|]. destruct (ok st); [|now left].
    destruct stored as [r|]; [|now left]. cbn [negb].
    destruct (truthy_string r); [|now left]. cbn [negb].
    destruct (r =? sha)%string; [now left|now right].
  - intros Hm. unfold checkForUpdates. destruct (snoozed now s); [exact Hm|].
    destruct res as [|st sha]; [exact Hm|]. destruct (ok st); [|exact Hm].
    destruct stored as [r|]; [|exact Hm]. cbn [negb].
    destruct (truthy_string r); [|exact Hm]. cbn [negb].
    destruct (r =? sha)%string; [exact Hm|reflexivity].
  - unfold checkForUpdates. destruct (snoozed now s); [cbn; lia|].
    destruct res as [|st sha]; [cbn; lia|]. destruct (ok st); [|cbn; lia].
    destruct stored as [r|]; [|cbn; lia]. cbn [negb].
    destruct (truthy_string r); [|cbn; lia]. cbn [negb].
    destruct (r =? sha)%string; [cbn; lia|].
    cbn [negb effects].
    change (Fetch :: RaiseModal :: alert s) with ([Fetch; RaiseModal] ++ alert s).
    rewrite notifications_alert. cbn. lia.
Qed.

Lemma failed_check_is_tolerated_witness :
  checkForUpdates Scenario.start (Response 403 "") (Some "3f2a9c1") Scenario.blank
  = mkChecked Scenario.blank (Some "3f2a9c1") [Fetch; ConsoleError].
Proof.
  apply (failed_check_is_tolerated Scenario.start (Response 403 "") (Some "3f2a9c1")
           Scenario.blank);
    [|reflexivity].
  right. exists 403, "". split; reflexivity.
Defined.

(** X20. The stored revision is written once: when a non-empty revision is
    stored, no sequence of checks replaces it, whatever the checks fetch.  A
    check then raises a notification exactly when it is not snoozed, the
    response is a success and the fetched revision differs from the stored
    one; so the notification comes again at every such check. *)
Theorem stored_revision_is_never_replaced
        (checks : list (Z * FetchResult)) (now : Z) (res : FetchResult)
        (r : string) (s : State) (done : list Effect) :
  r <> "" ->
  storage (poll checks (mkChecked s (Some r) done)) = Some r
  /\ notifications (effects (checkForUpdates now res (Some r) s))
     = (if snoozed now s then 0%nat
        else match res with
             | NetworkError => 0%nat
             | Response st sha =>
                 if ok st && negb (r =? sha)%string then 1%nat else 0%nat
             end).
Proof.
  intros Hne.
  assert (Hr : truthy_string r = true).
  { unfold truthy_string. destruct (String.eqb_spec r ""); [contradiction|reflexivity]. }
  split.
  - revert s done. induction checks as [|[t f] checks IH]; intros s done; [reflexivity|].
    cbn [poll storage state]. rewrite (check_keeps_stored t f r s Hr). apply IH.
  - unfold checkForUpdates. destruct (snoozed now s); [reflexivity|].
    destruct res as [|st sha]; [reflexivity|]. destruct (ok st); [|reflexivity].
    cbn [negb andb]. rewrite Hr. cbn [negb].
    destruct (r =? sha)%string; [reflexivity|].
    cbn [effects negb].
    change (Fetch :: RaiseModal :: alert s) with ([Fetch; RaiseModal] ++ alert s).
    now rewrite notifications_alert.
Qed.

Lemma stored_revision_is_never_replaced_witness :
  storage (poll [(Scenario.start, Response 200 "77b0e4d");
                 (Scenario.start + 600000, NetworkError);
                 (Scenario.start + 1200000, Response 200 "c01dbee")]
                (mkChecked Scenario.blank (Some "3f2a9c1") []))
  = Some "3f2a9c1".
Proof.
  apply (stored_revision_is_never_replaced
           [(Scenario.start, Response 200 "77b0e4d");
            (Scenario.start + 600000, NetworkError);
            (Scenario.start + 1200000, Response 200 "c01dbee")]
           Scenario.start NetworkError "3f2a9c1" Scenario.blank []).
  discriminate.
Defined.

(** X21. A snooze of [m] minutes taken at [t3] (a time after the epoch)
    suppresses the checks strictly before [t3 + m * 60000] and no others: a
    snooze of zero or fewer minutes suppresses no check made from [t3] on,
    and a check made exactly when the snooze ends runs again and, seeing a
    revision other than the stored one, raises the notification.  A second
    snooze replaces the first, even by an earlier end. *)
Theorem snooze_window (t3 m t : Z) (s : State) :
  0 <= t3 ->
  (0 < m -> (snoozed t (handleSnooze t3 m s) = true <-> t < t3 + m * 60000))
  /\ (m <= 0 -> t3 <= t -> snoozed t (handleSnooze t3 m s) = false)
  /\ (forall r sha st,
        r <> "" -> sha <> r -> ok st = true -> t3 + m * 60000 <= t ->
        notifications
          (effects (checkForUpdates t (Response st sha) (Some r) (handleSnooze t3 m s)))
        = 1%nat)
  /\ (forall t' m',
        snoozeUntil (handleSnooze t' m' (handleSnooze t3 m s)) = Some (t' + m' * 60 * 1000)).
Proof.
  intros Hpos.
  assert (E : snoozed t (handleSnooze t3 m s)
              = negb (t3 + m * 60 * 1000 =? 0) && (t <? t3 + m * 60 * 1000))
    by reflexivity.
  split; [|split; [|split]].
  - intros Hm. rewrite E. split.
    + intros H. apply andb_prop in H. destruct H as [_ H]. apply Z.ltb_lt in H. lia.
    + intros H. apply andb_true_intro. split.
      * apply negb_true_iff. apply Z.eqb_neq. lia.
      * apply Z.ltb_lt. lia.
  - intros Hm Ht. rewrite E. apply andb_false_intro2. apply Z.ltb_ge. lia.
  - intros r sha st Hr Hsha Hok Ht.
    assert (Hz : snoozed t (handleSnooze t3 m s) = false)
      by (rewrite E; apply andb_false_intro2; apply Z.ltb_ge; lia).
    assert (Htr : truthy_string r = true).
    { unfold truthy_string. destruct (String.eqb_spec r ""); [contradiction|reflexivity]. }
    assert (Hne : (r =? sha)%string = false).
    { destruct (String.eqb_spec r sha); [subst; contradiction|reflexivity]. }
    unfold checkForUpdates. rewrite Hz, Hok. cbn [negb]. rewrite Htr. cbn [negb].
    rewrite Hne. cbn [negb effects].
    change (Fetch :: RaiseModal :: alert (handleSnooze t3 m s))
      with ([Fetch; RaiseModal] ++ alert (handleSnooze t3 m s)).
    now rewrite notifications_alert.
  - reflexivity.
Qed.

Lemma snooze_window_witness :
  snoozed (Scenario.start + 600000) (handleSnooze Scenario.start 0 Scenario.blank) = false
  /\ notifications
       (effects (checkForUpdates (Scenario.start + 600000) (Response 200 "77b0e4d")
                   (Some "3f2a9c1") (handleSnooze Scenario.start 10 Scenario.blank)))
     = 1%nat.
Proof.
  assert (Hpos : 0 <= Scenario.start) by (unfold Scenario.start; lia).
  split.
  - apply (snooze_window Scenario.start 0 (Scenario.start + 600000) Scenario.blank Hpos);
      unfold Scenario.start; lia.
  - apply (snooze_window Scenario.start 10 (Scenario.start + 600000) Scenario.blank Hpos);
      [discriminate|discriminate|reflexivity|unfold Scenario.start; lia].
Defined.

(** X22. Update Now does not acknowledge the update.  The reload starts the
    page again from its defaults, with no snooze, but the stored revision
    survives it and is never brought up to date: the first successful check
    after the reload that still sees a revision other than the stored one
    raises the notification again. *)
Theorem update_now_brings_the_prompt_back
        (c : Checked) (now st : Z) (r sha : string) :
  storage c = Some r ->
  r <> "" ->
  sha <> r ->
  ok st = true ->
  state (handleUpdateNow c) = initial
  /\ storage (handleUpdateNow c) = Some r
  /\ snoozed now (state (handleUpdateNow c)) = false
  /\ notifications
       (effects (checkForUpdates now (Response st sha)
                   (storage (handleUpdateNow c)) (state (handleUpdateNow c))))
     = 1%nat
  /\ showUpdateModal
       (state (checkForUpdates now (Response st sha)
                 (storage (handleUpdateNow c)) (state (handleUpdateNow c))))
     = true
  /\ storage (checkForUpdates now (Response st sha)
                (storage (handleUpdateNow c)) (state (handleUpdateNow c)))
     = Some r.
Proof.
  intros Hst Hr Hsha Hok. cbn [handleUpdateNow state storage]. rewrite Hst.
  assert (Htr : truthy_string r = true).
  { unfold truthy_string. destruct (String.eqb_spec r ""); [contradiction|reflexivity]. }
  assert (Hne : (r =? sha)%string = false).
  { destruct (String.eqb_spec r sha); [subst; contradiction|reflexivity]. }
  assert (E : checkForUpdates now (Response st sha) (Some r) initial
              = mkChecked (setShowUpdateModal true initial) (Some r) [Fetch; RaiseModal]).
  { unfold checkForUpdates. cbn [snoozed initial snoozeUntil]. rewrite Hok. cbn [negb].
    rewrite Htr. cbn [negb]. rewrite Hne. reflexivity. }
  rewrite E. repeat split.
Qed.

Lemma update_now_brings_the_prompt_back_witness :
  notifications
    (effects (checkForUpdates (Scenario.start + 5000) (Response 200 "77b0e4d")
                (Some "3f2a9c1") initial))
  = 1%nat.
Proof.
  apply (update_now_brings_the_prompt_back
           (mkChecked (setShowUpdateModal true Scenario.blank) (Some "3f2a9c1") [])
           (Scenario.start + 5000) 200 "3f2a9c1" "77b0e4d");
    [reflexivity|discriminate|discriminate|reflexivity].
Defined.

End UpdateProperties.

(** * More about the analysis client *)

Module AnalyzerProperties.
Import DataAnalyzer.

(** X23. A response that parses to a falsy value (null, false, zero or the
    empty string) is dropped without a word: the call ends with no error and
    with that value as the result, and what is rendered is the idle screen
    with its button, exactly as before any analysis. *)
Theorem falsy_response_shows_nothing (p : Props) (r : json) (s : State) :
  request_for p <> None ->
  truthy r = false ->
  error (analyze p (Body (Some r)) s) = None
  /\ analysis (analyze p (Body (Some r)) s) = r
  /\ renderContent p (analyze p (Body (Some r)) s) = renderContent p initial
  /\ renderContent p (analyze p (Body (Some r)) s)
     = Idle (match imageData p with
             | Some _ => "Analyze Image"
             | None => "Initiate Analysis"
             end)
  /\ (r = JNull \/ r = JBool false \/ r = JString ""
      \/ exists q, r = JNumber q /\ Qeq_bool q 0 = true).
Proof.
  intros Hp Hr. rewrite (Analysis.analyze_success p r s Hp).
  split; [reflexivity|]. split; [reflexivity|].
  assert (Hv : renderContent p (mkState false r None) = renderContent p initial).
  { unfold renderContent. cbn [isLoading error analysis truthy_ostring initial truthy].
    now rewrite Hr. }
  split; [exact Hv|]. split; [rewrite Hv; reflexivity|].
  destruct r as [|b|q|t|items|members]; cbn [truthy] in Hr; try discriminate Hr.
  - now left.
  - right. left. now subst b.
  - right. right. right. exists q. split; [reflexivity|].
    now apply negb_false_iff in Hr.
  - right. right. left. f_equal.
    unfold truthy_string in Hr. apply negb_false_iff in Hr. now apply String.eqb_eq in Hr.
Qed.

Lemma falsy_response_shows_nothing_witness :
  renderContent Scenario.text_props (analyze Scenario.text_props (Body (Some JNull)) failed)
  = Idle "Initiate Analysis".
Proof.
  apply (falsy_response_shows_nothing Scenario.text_props JNull failed);
    [discriminate|reflexivity].
Defined.

(** X24. What a request carries.  The image request depends on the MIME type
    and the base64 data of the image only: neither the file name nor the
    data URL is sent, and no system instruction.  The text request embeds the
    text as it is after a fixed prefix, so that different texts give
    different requests.  Either request names the same model, asks for JSON,
    and declares one of the two schemas. *)
Theorem request_carries_the_payload_only (p : Props) (rq : Request) :
  (forall img1 img2,
      App.mimeType img1 = App.mimeType img2 -> App.base64 img1 = App.base64 img2 ->
      image_request img1 = image_request img2)
  /\ (forall img, exists prompt,
        contents (image_request img) = Parts prompt (App.mimeType img) (App.base64 img)
        /\ systemInstruction (image_request img) = None)
  /\ (forall t1 t2, text_request t1 = text_request t2 -> t1 = t2)
  /\ (request_for p = Some rq ->
      model rq = "gemini-2.5-flash"
      /\ responseMimeType rq = "application/json"
      /\ (responseSchema rq = image_schema \/ responseSchema rq = text_schema)).
Proof.
  split; [|split; [|split]].
  - intros img1 img2 Hm Hb. unfold image_request. now rewrite Hm, Hb.
  - intros img. eexists. split; reflexivity.
  - intros t1 t2 H. unfold text_request in H. injection H as H. exact H.
  - unfold request_for. destruct (imageData p) as [img|].
    + intros H. injection H as <-. repeat split. now left.
    + destruct (textContent p) as [t|]; [|discriminate].
      destruct (truthy_string t); [|discriminate].
      intros H. injection H as <-. repeat split. now right.
Qed.

Lemma request_carries_the_payload_only_witness :
  model (text_request "hello world") = "gemini-2.5-flash".
Proof.
  apply (request_carries_the_payload_only Scenario.text_props (text_request "hello world")).
  reflexivity.
Defined.

End AnalyzerProperties.
